(** * n-csr-extractor: the agentic extraction loop of [extraction-v2.py]

    A shallow embedding of [validate_financial_logic],
    [process_table_agentic_loop], [extract_tables_from_html] and [main],
    and the properties of the retry protocol, of the financial-consistency
    validator and of the batch driver that the specification states.

    Layout:
    - [Py]: the part of the Python runtime the program relies on
      (exceptions, string methods, [float], [repr], [str], dictionaries);
    - the program monad: the log of the requests sent to the model is
      threaded as state, printed lines and written files are let out as
      events, an exception is a result;
    - the program, function by function, in source order; the model, the
      [json] module, the HTML parser and the file system are parameters;
      a call that can fail returns or raises;
    - the vocabulary of the properties;
    - concrete collaborators, to run the program;
    - the properties: validator, dictionaries, session, batch;
    - worked conversations and batches.

    Conventions: a Python [float] is the kernel's binary64 [float]; an
    [int] is a [Z]; a [str] is the [string] of the bytes of its UTF-8
    encoding; a [dict] is an association list in insertion order; [None]
    as a return value of the validator is [None : option string]. *)

From Stdlib Require Import ZArith List String Ascii Bool Lia PeanoNat.
From Stdlib Require Import Floats.
From Stdlib Require DecimalString DecimalPos.
Import ListNotations.

Set Warnings "-register-all".
Local Open Scope list_scope.
Local Open Scope string_scope.

(* ================================================================== *)
(** * The Python runtime, as far as the program uses it *)
(* ================================================================== *)

Module Py.

(** ** Exceptions

    An exception is its class and its message ([str(e)]).  Only
    [ValueError] is ever told apart from the others by the program
    ([except ValueError] in the validator). *)

Inductive exn_class : Type :=
| ValueError
| AttributeError
| TypeError
| UnboundLocalError
| OtherError (name : string).

Record exn : Type := Raise { exn_kind : exn_class; exn_msg : string }.

(** A call either raises ([inl]) or returns ([inr]). *)
Definition result (A : Type) : Type := (exn + A)%type.

Definition is_ValueError (e : exn) : bool :=
  match exn_kind e with ValueError => true | _ => false end.

(** ** Characters and strings

    A [str] is modelled by the bytes of its UTF-8 encoding (a lone
    surrogate encoded like any other code point).  A character is a byte
    that is not a continuation byte, with the continuation bytes after
    it.  Searching and removing ASCII text byte by byte is searching and
    removing it character by character, since no byte of a longer
    character is below 128. *)

Definition dquote : string := String (ascii_of_nat 34) EmptyString.
Definition squote : string := String (ascii_of_nat 39) EmptyString.
Definition newline : string := String (ascii_of_nat 10) EmptyString.

Definition is_upper (c : ascii) : bool :=
  let n := nat_of_ascii c in (65 <=? n)%nat && (n <=? 90)%nat.

Definition is_digit (c : ascii) : bool :=
  let n := nat_of_ascii c in (48 <=? n)%nat && (n <=? 57)%nat.

Definition lower_char (c : ascii) : ascii :=
  if is_upper c then ascii_of_nat (nat_of_ascii c + 32) else c.

(** [s.lower()], as far as ASCII text is sought in the result: the
    ASCII letters are mapped, the other characters are left as they are.
    [str.lower] maps them to characters that are not ASCII either, but for
    U+0130 and U+212A, which give [i] before U+0307 and [k]; no text
    sought by the program passes through one of these. *)
Fixpoint lower (s : string) : string :=
  match s with
  | EmptyString => EmptyString
  | String c t => String (lower_char c) (lower t)
  end.

Fixpoint starts_with (p s : string) : bool :=
  match p, s with
  | EmptyString, _ => true
  | String a p', String b s' => Ascii.eqb a b && starts_with p' s'
  | String _ _, EmptyString => false
  end.

(** [p in s] for two strings *)
Fixpoint str_in (p s : string) : bool :=
  starts_with p s ||
  match s with
  | EmptyString => false
  | String _ t => str_in p t
  end.

(** [s.replace(',', '')] *)
Fixpoint remove_commas (s : string) : string :=
  match s with
  | EmptyString => EmptyString
  | String c t =>
      if Ascii.eqb c "," then remove_commas t else String c (remove_commas t)
  end.

Definition is_continuation (c : ascii) : bool :=
  let n := nat_of_ascii c in (128 <=? n)%nat && (n <? 192)%nat.

(** [len(s)]: the number of characters. *)
Fixpoint py_len (s : string) : nat :=
  match s with
  | EmptyString => 0%nat
  | String c t => if is_continuation c then py_len t else S (py_len t)
  end.

(** The first [n] characters. *)
Fixpoint take_chars (n : nat) (s : string) : string :=
  match s with
  | EmptyString => EmptyString
  | String c t =>
      if is_continuation c then String c (take_chars n t)
      else match n with
           | O => EmptyString
           | S n' => String c (take_chars n' t)
           end
  end.

(** [s[:n]] *)
Definition slice_to (n : N) (s : string) : string := take_chars (N.to_nat n) s.

(** The strings that encode a text: every character is one byte below
    128, or a lead byte with its one, two or three continuation bytes. *)
Fixpoint utf8_from (more : nat) (s : string) : bool :=
  match s with
  | EmptyString => (more =? 0)%nat
  | String c t =>
      let n := nat_of_ascii c in
      match more with
      | S more' => is_continuation c && utf8_from more' t
      | O =>
          if (n <? 128)%nat then utf8_from 0 t
          else if (n <? 192)%nat then false
          else if (n <? 224)%nat then utf8_from 1 t
          else if (n <? 240)%nat then utf8_from 2 t
          else if (n <? 248)%nat then utf8_from 3 t
          else false
      end
  end.

Definition is_text (s : string) : bool := utf8_from 0 s.

Fixpoint join (sep : string) (l : list string) : string :=
  match l with
  | [] => EmptyString
  | [x] => x
  | x :: t => x ++ sep ++ join sep t
  end.

Definition str_of_Z (z : Z) : string :=
  DecimalString.NilZero.string_of_int (Z.to_int z).

Definition str_of_nat (n : nat) : string := str_of_Z (Z.of_nat n).

(** ** [repr(s)] for a string, as it appears in messages and in the [str]
    of a container *)

Definition hex_digit (n : nat) : ascii :=
  if (n <? 10)%nat then ascii_of_nat (48 + n) else ascii_of_nat (87 + n).

Definition repr_char (quote c : ascii) : string :=
  let n := nat_of_ascii c in
  if Ascii.eqb c quote || Ascii.eqb c "\" then String "\" (String c EmptyString)
  else if (n =? 9)%nat then "\t"
  else if (n =? 10)%nat then "\n"
  else if (n =? 13)%nat then "\r"
  else if (n <? 32)%nat || (n =? 127)%nat then
    String "\" (String "x" (String (hex_digit (n / 16)) (String (hex_digit (n mod 16)) EmptyString)))
  else String c EmptyString.

Fixpoint repr_chars (quote : ascii) (s : string) : string :=
  match s with
  | EmptyString => EmptyString
  | String c t => repr_char quote c ++ repr_chars quote t
  end.

Definition repr_str (s : string) : string :=
  let q := if str_in squote s && negb (str_in dquote s) then dquote else squote in
  let qc := match q with String c _ => c | EmptyString => Ascii.zero end in
  q ++ repr_chars qc s ++ q.

(** ** Floating point numbers

    A Python [float] is an IEEE 754 binary64 number: the kernel's [float].
    Decimal text is converted by one correct rounding of the exact
    rational value, as [float(s)] does. *)

Definition SF_of_decimal (neg : bool) (m : positive) (e : Z) : spec_float :=
  match e with
  | Zneg k =>
      let '(q, e', l) :=
        SFdiv_core_binary prec emax (Zpos m) 0 (Zpos (10 ^ k)) 0 in
      binary_round_aux prec emax neg q e' l
  | _ => binary_round prec emax neg (m * Z.to_pos (10 ^ e)) 0
  end.

(** The float nearest to [(-1)^neg * m * 10^e]. *)
Definition float_of_decimal (neg : bool) (m e : Z) : float :=
  match m with
  | Zpos p => SF2Prim (SF_of_decimal neg p e)
  | _ => if neg then neg_zero else PrimFloat.zero
  end.

(** *** [float(s)]: characters above ASCII

    Before it reads a text that is not ASCII, [float] replaces every
    white-space character above ASCII by a space and every decimal digit
    of another script by the ASCII digit of its value; at the first other
    character above ASCII it puts a question mark and drops the rest. *)

(** The value a lead byte contributes, and the number of continuation
    bytes it announces. *)
Definition lead_bits (c : ascii) : N :=
  let n := N_of_ascii c in
  if (n <? 128)%N then n
  else if (n <? 192)%N then 65533%N
  else if (n <? 224)%N then (n - 192)%N
  else if (n <? 240)%N then (n - 224)%N
  else (n - 240)%N.

Definition lead_more (c : ascii) : nat :=
  let n := N_of_ascii c in
  if (n <? 192)%N then 0%nat
  else if (n <? 224)%N then 1%nat
  else if (n <? 240)%N then 2%nat
  else 3%nat.

(** The code points of a text; [cur] is what has been read of a
    character that has [more] continuation bytes to come. *)
Fixpoint code_points_from (cur : N) (more : nat) (l : list ascii) : list N :=
  match l with
  | [] => [cur]
  | c :: t =>
      match more with
      | S more' =>
          if is_continuation c
          then code_points_from (cur * 64 + (N_of_ascii c - 128))%N more' t
          else cur :: code_points_from (lead_bits c) (lead_more c) t
      | O => cur :: code_points_from (lead_bits c) (lead_more c) t
      end
  end.

Definition code_points (l : list ascii) : list N :=
  match l with
  | [] => []
  | c :: t => code_points_from (lead_bits c) (lead_more c) t
  end.

(** [str.isspace] above ASCII. *)
Definition is_unicode_space (cp : N) : bool :=
  ((cp =? 0x85) || (cp =? 0xa0) || (cp =? 0x1680)
   || ((0x2000 <=? cp) && (cp <=? 0x200a))
   || (cp =? 0x2028) || (cp =? 0x2029) || (cp =? 0x202f) || (cp =? 0x205f)
   || (cp =? 0x3000))%N.

(** The digits zero of the decimal digits above ASCII (Unicode 14.0, the
    one of Python 3.11); each is followed by its digits one to nine. *)
Definition decimal_zeros : list N :=
  [ 0x660; 0x6f0; 0x7c0; 0x966; 0x9e6; 0xa66; 0xae6; 0xb66; 0xbe6; 0xc66;
    0xce6; 0xd66; 0xde6; 0xe50; 0xed0; 0xf20; 0x1040; 0x1090; 0x17e0; 0x1810;
    0x1946; 0x19d0; 0x1a80; 0x1a90; 0x1b50; 0x1bb0; 0x1c40; 0x1c50; 0xa620;
    0xa8d0; 0xa900; 0xa9d0; 0xa9f0; 0xaa50; 0xabf0; 0xff10; 0x104a0; 0x10d30;
    0x11066; 0x110f0; 0x11136; 0x111d0; 0x112f0; 0x11450; 0x114d0; 0x11650;
    0x116c0; 0x11730; 0x118e0; 0x11950; 0x11c50; 0x11d50; 0x11da0; 0x16a60;
    0x16ac0; 0x16b50; 0x1d7ce; 0x1d7d8; 0x1d7e2; 0x1d7ec; 0x1d7f6; 0x1e140;
    0x1e2f0; 0x1e950; 0x1fbf0 ]%N.

Definition decimal_digit (cp : N) : option N :=
  option_map (fun z => (cp - z)%N)
             (find (fun z => (z <=? cp) && (cp <=? z + 9))%N decimal_zeros).

Fixpoint to_ascii_text (cps : list N) : list ascii :=
  match cps with
  | [] => []
  | cp :: t =>
      if (cp <? 127)%N then ascii_of_N cp :: to_ascii_text t
      else if is_unicode_space cp then " "%char :: to_ascii_text t
      else match decimal_digit cp with
           | Some d => ascii_of_N (48 + d) :: to_ascii_text t
           | None => [ "?"%char ]
           end
  end.

Definition is_ascii (l : list ascii) : bool :=
  forallb (fun c => (nat_of_ascii c <? 128)%nat) l.

(** The text [float] reads. *)
Definition float_text (s : string) : list ascii :=
  let l := list_ascii_of_string s in
  if is_ascii l then l else to_ascii_text (code_points l).

(** *** [float(s)]: the grammar of a float literal *)

Definition is_space (c : ascii) : bool :=
  let n := nat_of_ascii c in
  ((9 <=? n)%nat && (n <=? 13)%nat) || (n =? 32)%nat.

Fixpoint lstrip (l : list ascii) : list ascii :=
  match l with
  | c :: t => if is_space c then lstrip t else l
  | [] => []
  end.

Definition strip (l : list ascii) : list ascii := rev (lstrip (rev (lstrip l))).

(** An underscore is accepted between two digits only, and dropped. *)
Fixpoint drop_underscores (prev : ascii) (l : list ascii) : option (list ascii) :=
  match l with
  | [] => if Ascii.eqb prev "_" then None else Some []
  | c :: t =>
      if Ascii.eqb c "_" then
        if is_digit prev then drop_underscores c t else None
      else if Ascii.eqb prev "_" && negb (is_digit c) then None
      else option_map (cons c) (drop_underscores c t)
  end.

Fixpoint span_digits (l : list ascii) : list ascii * list ascii :=
  match l with
  | c :: t =>
      if is_digit c then let '(d, r) := span_digits t in (c :: d, r)
      else ([], l)
  | [] => ([], [])
  end.

Definition digits_value (d : list ascii) : Z :=
  fold_left (fun acc c => (10 * acc + Z.of_nat (nat_of_ascii c - 48))%Z) d 0%Z.

Definition parse_sign (l : list ascii) : bool * list ascii :=
  match l with
  | c :: t =>
      if Ascii.eqb c "-" then (true, t)
      else if Ascii.eqb c "+" then (false, t)
      else (false, l)
  | [] => (false, l)
  end.

Definition parse_exponent (l : list ascii) : option Z :=
  match l with
  | [] => Some 0%Z
  | c :: t =>
      if Ascii.eqb (lower_char c) "e" then
        let '(neg, t') := parse_sign t in
        let '(d, r) := span_digits t' in
        match d, r with
        | _ :: _, [] => Some (if neg then - digits_value d else digits_value d)%Z
        | _, _ => None
        end
      else None
  end.

(** [digits [. digits] [e [sign] digits]], with a digit before the
    exponent: the mantissa as an integer and the decimal exponent. *)
Definition parse_number (l : list ascii) : option (Z * Z) :=
  let '(ip, r1) := span_digits l in
  let '(fp, r2) :=
    match r1 with
    | c :: t => if Ascii.eqb c "." then span_digits t else ([], r1)
    | [] => ([], r1)
    end in
  match (ip ++ fp)%list with
  | [] => None
  | ds =>
      option_map (fun x => (digits_value ds, x - Z.of_nat (List.length fp))%Z)
                 (parse_exponent r2)
  end.

Definition parse_float (l : list ascii) : option float :=
  match drop_underscores Ascii.zero l with
  | None => None
  | Some l1 =>
      let '(neg, body) := parse_sign (strip l1) in
      let word := lower (string_of_list_ascii body) in
      if String.eqb word "inf" || String.eqb word "infinity" then
        Some (if neg then neg_infinity else infinity)
      else if String.eqb word "nan" then Some nan
      else option_map (fun '(m, e) => float_of_decimal neg m e) (parse_number body)
  end.

(** [float(s)] for a string [s]: the number, or [ValueError].  The
    message names [s] as [repr] writes ASCII text; the program never
    reads it. *)
Definition py_float (s : string) : result float :=
  match parse_float (float_text s) with
  | Some f => inr f
  | None =>
      inl (Raise ValueError ("could not convert string to float: " ++ repr_str s))
  end.

(** *** [repr(x)] for a float: the shortest decimal text that [float]
    reads back as [x], the nearest to [x] when there are several. *)

Definition num_digits (z : Z) : Z := Z.of_nat (String.length (str_of_Z z)).

(** [q] with [10^q <= n/d < 10^(q+1)], for positive [n] and [d]. *)
Definition floor_log10 (n d : Z) : Z :=
  if (d <=? n)%Z then (num_digits (n / d) - 1)%Z
  else
    let k := num_digits (d / n) in
    if (n * 10 ^ (k - 1) =? d)%Z then (- (k - 1))%Z else (- k)%Z.

(** [n/d] scaled by [10^(-p)], as a fraction. *)
Definition scale10 (n d p : Z) : Z * Z :=
  if (0 <=? p)%Z then (n, d * 10 ^ p)%Z else (n * 10 ^ (- p), d)%Z.

Definition reads_back (x : spec_float) (c p : Z) : bool :=
  match c with
  | Zpos c' => SFeqb (SF_of_decimal false c' p) x
  | _ => false
  end.

(** The [k]-digit decimal [c * 10^p] next to [n/d] that reads back as [x],
    if one does. *)
Definition digits_at (x : spec_float) (n d q : Z) (k : nat) : option (Z * Z) :=
  let p := (q - (Z.of_nat k - 1))%Z in
  let '(a, b) := scale10 n d p in
  let lo := (a / b)%Z in
  let r := (a mod b)%Z in
  let hi := (lo + 1)%Z in
  let lo_first := (2 * r <? b)%Z || ((2 * r =? b)%Z && Z.even lo) in
  match reads_back x lo p, reads_back x hi p with
  | true, true => Some (if lo_first then lo else hi, p)
  | true, false => Some (lo, p)
  | false, true => Some (hi, p)
  | false, false => None
  end.

Fixpoint shortest_from (x : spec_float) (n d q : Z) (k fuel : nat) : option (Z * Z) :=
  match fuel with
  | O => None
  | S fuel' =>
      match digits_at x n d q k with
      | Some r => Some r
      | None => shortest_from x n d q (S k) fuel'
      end
  end.

Fixpoint drop_zeros (fuel : nat) (c p : Z) : Z * Z :=
  match fuel with
  | O => (c, p)
  | S fuel' =>
      if (c mod 10 =? 0)%Z then drop_zeros fuel' (c / 10)%Z (p + 1)%Z else (c, p)
  end.

Fixpoint zeros (n : nat) : string :=
  match n with O => EmptyString | S n' => String "0" (zeros n') end.

(** The digits [ds] and the position [decpt] of the point
    ([0.ds * 10^decpt]) laid out as [repr] does: exponent form when
    [decpt <= -4] or [decpt > 16]. *)
Definition format_repr (ds : string) (decpt : Z) : string :=
  let n := Z.of_nat (String.length ds) in
  if (decpt <=? -4)%Z || (16 <? decpt)%Z then
    let e := (decpt - 1)%Z in
    let ea := str_of_Z (Z.abs e) in
    String.substring 0 1 ds
      ++ (if (1 <? n)%Z then "." ++ String.substring 1 (String.length ds - 1) ds
          else EmptyString)
      ++ "e" ++ (if (e <? 0)%Z then "-" else "+")
      ++ (if (String.length ea <? 2)%nat then "0" ++ ea else ea)
  else if (decpt <=? 0)%Z then "0." ++ zeros (Z.to_nat (- decpt)) ++ ds
  else if (n <=? decpt)%Z then ds ++ zeros (Z.to_nat (decpt - n)) ++ ".0"
  else String.substring 0 (Z.to_nat decpt) ds ++ "."
       ++ String.substring (Z.to_nat decpt) (String.length ds - Z.to_nat decpt) ds.

Definition repr_finite (m : positive) (e : Z) : string :=
  let x := S754_finite false m e in
  let '(n, d) :=
    match e with
    | Zneg k => (Zpos m, Zpos (2 ^ k))
    | _ => (Zpos m * 2 ^ e, 1)%Z
    end in
  match shortest_from x n d (floor_log10 n d) 1 17 with
  | Some (c, p) =>
      let '(c', p') := drop_zeros 17 c p in
      let ds := str_of_Z c' in
      format_repr ds (Z.of_nat (String.length ds) + p')
  | None => "?"
  end.

Definition repr_float (f : float) : string :=
  match Prim2SF f with
  | S754_nan => "nan"
  | S754_infinity s => if s then "-inf" else "inf"
  | S754_zero s => if s then "-0.0" else "0.0"
  | S754_finite s m e => (if s then "-" else EmptyString) ++ repr_finite m e
  end.

(** ** Values decoded from JSON

    What [json.loads] returns: [None], [bool], [int], [float], [str],
    [list] and [dict].  A [dict] keeps its keys in insertion order. *)

Inductive json : Type :=
| JNull
| JBool (b : bool)
| JInt (z : Z)
| JFloat (f : float)
| JStr (s : string)
| JList (l : list json)
| JDict (d : list (string * json)).

Definition dict : Type := list (string * json).

Fixpoint dict_get (k : string) (d : dict) : option json :=
  match d with
  | [] => None
  | (k', v) :: t => if String.eqb k' k then Some v else dict_get k t
  end.

(** [d[k] = v]: the value of an existing key is replaced in place, a new
    key goes last. *)
Fixpoint dict_set (k : string) (v : json) (d : dict) : dict :=
  match d with
  | [] => [(k, v)]
  | (k', v') :: t =>
      if String.eqb k' k then (k, v) :: t else (k', v') :: dict_set k v t
  end.

Definition type_name (v : json) : string :=
  match v with
  | JNull => "NoneType"
  | JBool _ => "bool"
  | JInt _ => "int"
  | JFloat _ => "float"
  | JStr _ => "str"
  | JList _ => "list"
  | JDict _ => "dict"
  end.

Definition no_attribute (v : json) (attr : string) : exn :=
  Raise AttributeError
        (squote ++ type_name v ++ squote ++ " object has no attribute "
         ++ squote ++ attr ++ squote).

(** [data.get(k, default)] *)
Definition py_get (data : json) (k : string) (default : json) : result json :=
  match data with
  | JDict d =>
      inr (match dict_get k d with Some v => v | None => default end)
  | _ => inl (no_attribute data "get")
  end.

(** [data[k] = v] *)
Definition py_setitem (data : json) (k : string) (v : json) : result json :=
  match data with
  | JDict d => inr (JDict (dict_set k v d))
  | JList _ =>
      inl (Raise TypeError "list indices must be integers or slices, not str")
  | _ =>
      inl (Raise TypeError
                 (squote ++ type_name data ++ squote
                  ++ " object does not support item assignment"))
  end.

(** [v.lower()] *)
Definition py_lower (v : json) : result string :=
  match v with
  | JStr s => inr (lower s)
  | _ => inl (no_attribute v "lower")
  end.

(** [repr(v)] and [str(v)] *)
Fixpoint py_repr (v : json) : string :=
  match v with
  | JNull => "None"
  | JBool b => if b then "True" else "False"
  | JInt z => str_of_Z z
  | JFloat f => repr_float f
  | JStr s => repr_str s
  | JList l => "[" ++ join ", " (map py_repr l) ++ "]"
  | JDict d =>
      "{" ++ join ", " (map (fun kv : string * json =>
                               let '(k, x) := kv in
                               (repr_str k ++ ": " ++ py_repr x)%string) d) ++ "}"
  end.

Definition py_str (v : json) : string :=
  match v with
  | JStr s => s
  | _ => py_repr v
  end.

End Py.

Import Py.

(* ================================================================== *)
(** * The program monad *)
(* ================================================================== *)

(** One turn of a conversation. *)
Record message : Type := Message { role : string; content : string }.

(** What [client.chat.completions.create] is given. *)
Record request : Type := Request {
  req_model : string;
  req_messages : list message;
  req_response_format : string;
  req_temperature : Z
}.

(** What the process lets out: a printed line, or a file written whole. *)
Inductive event : Type :=
| Print (line : string)
| WriteFile (path : string) (doc : json).

(** A computation reads and extends the log of the requests sent to the
    model so far, lets out events, and raises or returns. *)
Definition Prog (A : Type) : Type :=
  list request -> result A * list request * list event.

Definition ret {A} (a : A) : Prog A := fun log => (inr a, log, []).

Definition raise {A} (e : exn) : Prog A := fun log => (inl e, log, []).

Definition lift {A} (r : result A) : Prog A := fun log => (r, log, []).

Definition bind {A B} (c : Prog A) (k : A -> Prog B) : Prog B :=
  fun log =>
    match c log with
    | (inr a, log1, out1) =>
        let '(r, log2, out2) := k a log1 in (r, log2, (out1 ++ out2)%list)
    | (inl e, log1, out1) => (inl e, log1, out1)
    end.

(** [try: c except Exception as e: ...], with the exception handed to the
    continuation. *)
Definition catch {A} (c : Prog A) : Prog (result A) :=
  fun log => let '(r, log1, out1) := c log in (inr r, log1, out1).

Definition print (line : string) : Prog unit := fun log => (inr tt, log, [Print line]).

Definition write_file (path : string) (doc : json) : Prog unit :=
  fun log => (inr tt, log, [WriteFile path doc]).

Declare Scope prog_scope.
Delimit Scope prog_scope with prog.
Notation "x <- c ;; k" := (bind c (fun x => k))
  (at level 61, c at next level, right associativity) : prog_scope.
Notation "c ;;; k" := (bind c (fun _ => k))
  (at level 61, right associativity) : prog_scope.
Local Open Scope prog_scope.

(* ================================================================== *)
(** * The program: [extraction-v2.py] *)
(* ================================================================== *)

Definition MODEL : string := "gpt-4o".

(** How many times to try to self-heal before giving up. *)
Definition MAX_RETRIES : nat := 3.

(** A [<table>] element found by the HTML parser: the length of
    [table.get_text(strip=True)] and [str(table)]. *)
Record tag : Type := Tag { text_len : nat; markup : string }.

Section Extraction.

(** ** The collaborators the program calls *)

(** The model behind [client.chat.completions.create]: the text of
    [response.choices[0].message.content] for the latest request, given
    every request sent so far, or the exception the call raises.  Every
    run of the program is a run against one such function, and the
    properties below hold for all of them. *)
Variable gateway : list request -> result string.

(** The [json] module. *)
Variable json_loads : string -> result json.
Variable json_dumps : json -> string.

(** [BeautifulSoup(content, 'html.parser').find_all('table')], with the
    text and the markup of each table; or the exception the parser
    raises, on the markup or when a table is read. *)
Variable find_all_tables : string -> result (list tag).

(** The file system: [os.path.exists], [os.path.isdir],
    [glob.glob(os.path.join(p, "*.txt"))], [os.path.basename], and
    [open(p).read()]. *)
Variable path_exists : string -> bool.
Variable path_isdir : string -> bool.
Variable glob_txt : string -> list string.
Variable basename : string -> string.
Variable read_text : string -> result string.

(** [client.chat.completions.create(...)], then the content of the first
    choice. *)
Definition chat_completions_create
    (model : string) (messages : list message)
    (response_format : string) (temperature : Z) : Prog string :=
  fun log =>
    let log' := (log ++ [Request model messages response_format temperature])%list in
    (gateway log', log', []).

(** ** [extract_tables_from_html] *)

Definition extract_tables_from_html (file_content : string) : result (list string) :=
  match find_all_tables file_content with
  | inl e => inl e
  | inr tables =>
      inr (map markup (filter (fun table => (100 <? text_len table)%nat) tables))
  end.

(** ** [validate_financial_logic]

    Returns [None] if valid, or an error string if invalid. *)

Definition math_error (assets liabilities net_assets difference : float) : string :=
  "Math Error: Total Assets (" ++ repr_float assets
  ++ ") does not equal Liabilities (" ++ repr_float liabilities
  ++ ") + Net Assets (" ++ repr_float net_assets
  ++ "). Difference is " ++ repr_float difference ++ ".".

Definition conversion_error : string :=
  "Validation Error: Could not convert financial fields to numbers.".

(** [float(str(data.get(k, 0)).replace(',', ''))] *)
Definition number_field (data : json) (k : string) : Prog float :=
  v <- lift (py_get data k (JInt 0)) ;;
  lift (py_float (remove_commas (py_str v))).

Definition validate_financial_logic (data : json) : Prog (option string) :=
  v <- lift (py_get data "table_type" (JStr EmptyString)) ;;
  table_type <- lift (py_lower v) ;;
  if str_in "balance sheet" table_type
     || str_in "assets and liabilities" table_type
  then
    r <- catch (
      assets <- number_field data "total_assets" ;;
      liabilities <- number_field data "total_liabilities" ;;
      net_assets <- number_field data "net_assets" ;;
      let calculated_total := (liabilities + net_assets)%float in
      let difference := abs (assets - calculated_total)%float in
      if (1.0 <? difference)%float
      then ret (Some (math_error assets liabilities net_assets difference))
      else ret None) ;;
    match r with
    | inr (Some error) => ret (Some error)
    | inr None => ret None
    | inl e =>
        if is_ValueError e then ret (Some conversion_error)
        else ret (Some ("Validation Error: " ++ exn_msg e))
    end
  else ret None.

(** ** [process_table_agentic_loop] *)

Definition system_prompt : string :=
  "You are a specialized financial auditor. You extract data precisely.".

Definition base_prompt (table_html filename : string) : string :=
  newline
  ++ "    Analyze this HTML table from file: " ++ filename ++ "." ++ newline
  ++ "    " ++ newline
  ++ "    Goal: Extract into JSON." ++ newline
  ++ "    " ++ newline
  ++ "    CRITICAL SCHEMA RULES:" ++ newline
  ++ "    1. Identify 'table_type'." ++ newline
  ++ "    2. If it is a Balance Sheet, you MUST extract keys: "
  ++ dquote ++ "total_assets" ++ dquote ++ ", "
  ++ dquote ++ "total_liabilities" ++ dquote ++ ", "
  ++ dquote ++ "net_assets" ++ dquote ++ "." ++ newline
  ++ "    3. Remove commas from numbers." ++ newline
  ++ "    " ++ newline
  ++ "    HTML:" ++ newline
  ++ "    " ++ slice_to 15000%N table_html ++ newline
  ++ "    ".

(** The two turns appended after a failed validation. *)
Definition assistant_turn (extracted_data : json) : message :=
  Message "assistant" (json_dumps extracted_data).

Definition audit_turn (error_message : string) : message :=
  Message "user"
    ("AUDIT FAILURE: " ++ error_message
     ++ ". Please re-examine the table image and fix your JSON output to satisfy the math check.").

(** The local variables the loop carries from one attempt to the next;
    [extracted_data] is unbound ([None]) until a response has been parsed. *)
Record locals : Type := Locals {
  messages : list message;
  extracted_data : option json
}.

(** How one pass through the loop body ends. *)
Inductive flow : Type :=
| Continue (l : locals)
| Break (l : locals)
| Return (v : json).

(** [except Exception as e: print(...); break] *)
Definition api_error (e : exn) (l : locals) : Prog flow :=
  print ("      ! API Error: " ++ exn_msg e) ;;;
  ret (Break l).

(** The body of the loop, lines 80 to 113.  The statements of the [try]
    run in order; each one that can raise is followed by the handler, so
    that an exception leaves the assignments made before it in place
    ([extracted_data] is bound once [json.loads] has returned). *)
Definition attempt_body (attempt : nat) (l : locals) : Prog flow :=
  print ("      > Attempt " ++ str_of_nat (attempt + 1) ++ "...") ;;;
  (* 1. Call LLM *)
  r <- catch (
    response <- chat_completions_create MODEL (messages l) "json_object" 0 ;;
    lift (json_loads response)) ;;
  match r with
  | inl e => api_error e l
  | inr data =>
      let l := Locals (messages l) (Some data) in
      (* 2. Deterministic Validation *)
      r <- catch (validate_financial_logic data) ;;
      match r with
      | inl e => api_error e l
      | inr None =>
          r <- catch (
            d1 <- lift (py_setitem data "validation_status" (JStr "passed")) ;;
            lift (py_setitem d1 "attempts_needed" (JInt (Z.of_nat (attempt + 1))))) ;;
          match r with
          | inr data' => ret (Return data')
          | inl e => api_error e l
          end
      | inr (Some error_message) =>
          (* 3. FAILURE: Validation failed *)
          print ("      ! Validation Failed: " ++ error_message) ;;;
          (* 4. Feed error back to LLM *)
          ret (Continue
                 (Locals (messages l ++ [assistant_turn data; audit_turn error_message])
                         (Some data)))
      end
  end.

(** [for attempt in attempts: ...]: the locals when the loop is left by
    exhaustion or [break], or the value returned from inside it. *)
Fixpoint attempts_loop (attempts : list nat) (l : locals) : Prog (locals + json) :=
  match attempts with
  | [] => ret (inl l)
  | attempt :: rest =>
      f <- attempt_body attempt l ;;
      match f with
      | Continue l' => attempts_loop rest l'
      | Break l' => ret (inl l')
      | Return v => ret (inr v)
      end
  end.

Definition unbound_local (name : string) : exn :=
  Raise UnboundLocalError
        ("cannot access local variable " ++ squote ++ name ++ squote
         ++ " where it is not associated with a value").

Definition process_table_agentic_loop (table_html filename : string) : Prog json :=
  let messages := [ Message "system" system_prompt;
                    Message "user" (base_prompt table_html filename) ] in
  x <- attempts_loop (seq 0 MAX_RETRIES) (Locals messages None) ;;
  match x with
  | inr v => ret v
  | inl l =>
      (* If we exhaust retries, mark as failed but return what we have *)
      print "      ! Exhausted retries. Returning last attempt." ;;;
      match extracted_data l with
      | Some data =>
          ret (JDict [ ("error", JStr "Validation failed after max retries");
                       ("last_attempt", data) ])
      | None => raise (unbound_local "extracted_data")
      end
  end.

(** ** [main] *)

(** [for i, table in enumerate(tables): ...], with the list
    [file_record["extracted_tables"]] built so far. *)
Fixpoint tables_loop (filename : string) (i : nat) (tables : list string)
    (extracted_tables : list json) : Prog (list json) :=
  match tables with
  | [] => ret extracted_tables
  | table :: rest =>
      print ("    - Processing Table " ++ str_of_nat (i + 1) ++ " (Agentic Loop)...") ;;;
      extracted_json <- process_table_agentic_loop table filename ;;
      tables_loop filename (S i) rest (extracted_tables ++ [extracted_json])
  end.

(** The body of the [try] in [main]: the record of one file. *)
Definition process_file (file_path : string) : Prog json :=
  content <- lift (read_text file_path) ;;
  tables <- lift (extract_tables_from_html content) ;;
  print ("  - Found " ++ str_of_nat (List.length tables) ++ " tables.") ;;;
  extracted_tables <- tables_loop (basename file_path) 0 tables [] ;;
  ret (JDict [ ("filename", JStr (basename file_path));
               ("extracted_tables", JList extracted_tables) ]).

(** [for file_path in files: ...], with [all_data] as accumulated. *)
Fixpoint files_loop (files : list string) (all_data : list json) : Prog (list json) :=
  match files with
  | [] => ret all_data
  | file_path :: rest =>
      print ("Processing: " ++ file_path) ;;;
      r <- catch (process_file file_path) ;;
      match r with
      | inr file_record => files_loop rest (all_data ++ [file_record])
      | inl e =>
          print ("Failed file " ++ file_path ++ ": " ++ exn_msg e) ;;;
          files_loop rest all_data
      end
  end.

(** [os.makedirs] and the opening of the output file are taken to
    succeed; [os.path.join] is the one of POSIX. *)
Definition main (input_path : string) : Prog unit :=
  let output_dir := "output" in
  let output_filename := output_dir ++ "/" ++ "final_output.json" in
  if negb (path_exists input_path) then print "Input path not found."
  else
    let '(files, output_filename) :=
      if path_isdir input_path then (glob_txt input_path, output_filename)
      else ([input_path],
            output_dir ++ "/" ++ basename input_path ++ "_extracted.json") in
    all_data <- files_loop files [] ;;
    write_file output_filename (JList all_data) ;;;
    print ("Done. Saved to " ++ output_filename).

End Extraction.

(** ** The script: [if __name__ == "__main__"] *)

Section Script.

Variable gateway : list request -> result string.
Variable json_loads : string -> result json.
Variable json_dumps : json -> string.
Variable find_all_tables : string -> result (list tag).
Variable path_exists : string -> bool.
Variable path_isdir : string -> bool.
Variable glob_txt : string -> list string.
Variable basename : string -> string.
Variable read_text : string -> result string.

(** Lines 170 to 174, for [sys.argv]: the exit status of the process,
    1 for [sys.exit(1)], 0 when [main] has returned. *)
Definition run_as_script (argv : list string) : Prog Z :=
  match argv with
  | _ :: input_path :: _ =>
      main gateway json_loads json_dumps find_all_tables path_exists path_isdir
           glob_txt basename read_text input_path ;;;
      ret 0%Z
  | _ =>
      print "Usage: python3 extract_tables.py <file_or_folder>" ;;;
      ret 1%Z
  end.

End Script.

(* ================================================================== *)
(** * The first version of the program: [extraction.py]

    One call to the model per table, no validation and no retry.
    [extract_tables_from_html] is the function of [extraction-v2.py]. *)
(* ================================================================== *)

Module V1.

Section Extraction.

Variable gateway : list request -> result string.
Variable json_loads : string -> result json.
Variable find_all_tables : string -> result (list tag).
Variable path_exists : string -> bool.
Variable path_isdir : string -> bool.
Variable glob_txt : string -> list string.
Variable basename : string -> string.
Variable read_text : string -> result string.

(** ** [process_table_with_llm] *)

Definition system_prompt : string :=
  "You are a helpful assistant that outputs JSON.".

Definition prompt (table_html filename : string) : string :=
  newline
  ++ "    You are a financial data extraction engine. " ++ newline
  ++ "    Analyze the following HTML table from an SEC N-CSR filing ("
  ++ filename ++ ")." ++ newline
  ++ "    " ++ newline
  ++ "    Your Goal: Extract the data into a structured JSON format." ++ newline
  ++ "    " ++ newline
  ++ "    Rules:" ++ newline
  ++ "    1. Identify the 'table_type' (e.g., "
  ++ dquote ++ "Schedule of Investments" ++ dquote ++ ", "
  ++ dquote ++ "Balance Sheet" ++ dquote ++ ", "
  ++ dquote ++ "Operations" ++ dquote ++ ", or "
  ++ dquote ++ "Other" ++ dquote ++ ")." ++ newline
  ++ "    2. Extract the headers and the rows accurately." ++ newline
  ++ "    3. Return ONLY a JSON object." ++ newline
  ++ "    " ++ newline
  ++ "    HTML Table:" ++ newline
  ++ "    " ++ slice_to 15000%N table_html
  ++ " # Truncating to 15k chars for safety in this simple script version" ++ newline
  ++ "    ".

Definition process_table_with_llm (table_html filename : string) : Prog json :=
  r <- catch (
    response <- chat_completions_create gateway MODEL
                  [ Message "system" system_prompt;
                    Message "user" (prompt table_html filename) ]
                  "json_object" 0 ;;
    lift (json_loads response)) ;;
  match r with
  | inr extracted => ret extracted
  | inl e =>
      print ("Error processing table chunk: " ++ exn_msg e) ;;;
      ret (JDict [ ("error", JStr (exn_msg e));
                   ("table_snippet", JStr (slice_to 100%N table_html)) ])
  end.

(** ** [main] *)

(** [for i, table in enumerate(tables): ...]; [total] is [len(tables)]. *)
Fixpoint tables_loop (filename : string) (total i : nat) (tables : list string)
    (extracted_tables : list json) : Prog (list json) :=
  match tables with
  | [] => ret extracted_tables
  | table :: rest =>
      print ("    - Extracting Table " ++ str_of_nat (i + 1) ++ "/"
             ++ str_of_nat total ++ "...") ;;;
      extracted_json <- process_table_with_llm table filename ;;
      tables_loop filename total (S i) rest (extracted_tables ++ [extracted_json])
  end.

(** The body of the [try] in [main]. *)
Definition process_file (file_path : string) : Prog json :=
  content <- lift (read_text file_path) ;;
  tables <- lift (extract_tables_from_html find_all_tables content) ;;
  print ("  - Found " ++ str_of_nat (List.length tables) ++ " significant tables.") ;;;
  extracted_tables <-
    tables_loop (basename file_path) (List.length tables) 0 tables [] ;;
  ret (JDict [ ("filename", JStr (basename file_path));
               ("extracted_tables", JList extracted_tables) ]).

Fixpoint files_loop (files : list string) (all_data : list json) : Prog (list json) :=
  match files with
  | [] => ret all_data
  | file_path :: rest =>
      print ("Processing: " ++ file_path) ;;;
      r <- catch (process_file file_path) ;;
      match r with
      | inr file_record => files_loop rest (all_data ++ [file_record])
      | inl e =>
          print ("Failed to process file " ++ file_path ++ ": " ++ exn_msg e) ;;;
          files_loop rest all_data
      end
  end.

(** [os.makedirs] and the opening of the output file are taken to
    succeed; [os.path.join] is the one of POSIX. *)
Definition main (input_path : string) : Prog unit :=
  let output_dir := "output" in
  let output_filename := output_dir ++ "/" ++ "final_output.json" in
  if negb (path_exists input_path) then
    print ("Error: The path '" ++ input_path ++ "' does not exist.")
  else
    files_and_output <-
      (if path_isdir input_path then
         let files := glob_txt input_path in
         print ("Directory detected. Found " ++ str_of_nat (List.length files)
                ++ " .txt files.") ;;;
         ret (files, output_filename)
       else
         ret ([input_path],
              output_dir ++ "/" ++ basename input_path ++ "_extracted.json")) ;;
    let '(files, output_filename) := files_and_output in
    all_data <- files_loop files [] ;;
    write_file output_filename (JList all_data) ;;;
    print ("Extraction complete. Data saved to " ++ output_filename).

(** Lines 133 to 143, for [sys.argv]: the exit status of the process. *)
Definition run_as_script (argv : list string) : Prog Z :=
  match argv with
  | _ :: input_arg :: _ => main input_arg ;;; ret 0%Z
  | _ =>
      print "Usage: python3 extract_tables.py <file_or_folder_path>" ;;;
      print "Example: python3 extract_tables.py my_filing.txt" ;;;
      ret 1%Z
  end.

End Extraction.

End V1.

(* ================================================================== *)
(** * Vocabulary of the properties *)
(* ================================================================== *)

Section Vocabulary.

Variable gateway : list request -> result string.
Variable json_loads : string -> result json.
Variable json_dumps : json -> string.
Variable path_isdir : string -> bool.
Variable glob_txt : string -> list string.
Variable basename : string -> string.

(** ** The validator *)

(** The text [float] is given for field [k] of [d]: the value, or [0]
    when the key is absent, as a string without commas. *)
Definition field_text (d : dict) (k : string) : string :=
  remove_commas (py_str (match dict_get k d with Some v => v | None => JInt 0 end)).



(** The verdict on three coerced operands (lines 39 to 43). *)
Definition audit (assets liabilities net_assets : float) : option string :=
  let difference := abs (assets - (liabilities + net_assets))%float in
  if (1.0 <? difference)%float
  then Some (math_error assets liabilities net_assets difference)
  else None.

(** ** The session *)

(** The request an attempt sends for a conversation history. *)
Definition request_for (history : list message) : request :=
  Request MODEL history "json_object" 0.

(** The record decoded from the response to the latest request of [log],
    or the fault of the call or of the decoding. *)
Definition response_record (log : list request) : result json :=
  match gateway log with
  | inl e => inl e
  | inr text => json_loads text
  end.

(** The validator's outcome on a record. *)
Definition verdict (data : json) : result (option string) :=
  fst (fst (validate_financial_logic data [])).

(** Lines 96 and 97. *)
Definition stamp (data : json) (attempt : nat) : result json :=
  match py_setitem data "validation_status" (JStr "passed") with
  | inl e => inl e
  | inr d1 => py_setitem d1 "attempts_needed" (JInt (Z.of_nat (attempt + 1)))
  end.

Definition attempt_line (attempt : nat) : event :=
  Print ("      > Attempt " ++ str_of_nat (attempt + 1) ++ "...").

Definition api_error_line (e : exn) : event :=
  Print ("      ! API Error: " ++ exn_msg e).

(** The conversation a session starts from. *)
Definition seed (table_html filename : string) : list message :=
  [ Message "system" system_prompt;
    Message "user" (base_prompt table_html filename) ].

Definition failure_record (data : json) : json :=
  JDict [ ("error", JStr "Validation failed after max retries");
          ("last_attempt", data) ].

Definition exhausted_line : event :=
  Print "      ! Exhausted retries. Returning last attempt.".

(** Field [k] of a returned record. *)
Definition field (k : string) (v : json) : option json :=
  match v with
  | JDict d => dict_get k d
  | _ => None
  end.

(** [k] attempts in a row, each answered by a record the validator
    rejects: the log and the locals before and after. *)
Inductive rejections : list request -> locals -> nat -> list request -> locals -> Prop :=
| rejections_none log l : rejections log l 0 log l
| rejections_more log l data reason k log' l' :
    response_record (log ++ [request_for (messages l)]) = inr data ->
    verdict data = inr (Some reason) ->
    rejections (log ++ [request_for (messages l)])
               (Locals (messages l ++ [assistant_turn json_dumps data; audit_turn reason])
                       (Some data))
               k log' l' ->
    rejections log l (S k) log' l'.

(** How the loop ends after [k] rejections, from log [log] and locals [l]:
    what it hands on and the final log. *)
Inductive loop_end (attempts : list nat) (log : list request) (l : locals) (k : nat)
  : locals + json -> list request -> Prop :=
| end_exhausted :
    k = List.length attempts ->
    loop_end attempts log l k (inl l) log
| end_accepted attempt data v :
    nth_error attempts k = Some attempt ->
    response_record (log ++ [request_for (messages l)]) = inr data ->
    verdict data = inr None ->
    stamp data attempt = inr v ->
    loop_end attempts log l k (inr v) (log ++ [request_for (messages l)])
| end_gateway_fault e :
    (k < List.length attempts)%nat ->
    response_record (log ++ [request_for (messages l)]) = inl e ->
    loop_end attempts log l k (inl l) (log ++ [request_for (messages l)])
| end_validator_fault data e :
    (k < List.length attempts)%nat ->
    response_record (log ++ [request_for (messages l)]) = inr data ->
    verdict data = inl e ->
    loop_end attempts log l k (inl (Locals (messages l) (Some data)))
             (log ++ [request_for (messages l)]).

(** ** The batch *)

(** The files [main] goes through, and the file it writes (lines 128 to
    138). *)
Definition batch_files (input_path : string) : list string :=
  if path_isdir input_path then glob_txt input_path else [input_path].

Definition output_filename (input_path : string) : string :=
  if path_isdir input_path then "output/final_output.json"
  else "output/" ++ basename input_path ++ "_extracted.json".

Definition processing_line (file_path : string) : event :=
  Print ("Processing: " ++ file_path).

Definition failed_line (file_path : string) (e : exn) : event :=
  Print ("Failed file " ++ file_path ++ ": " ++ exn_msg e).

(** ** What the validator reads *)

(** [data.get("table_type", "").lower()] for a mapping (line 28). *)
Definition table_type_of (d : dict) : result string :=
  py_lower (match dict_get "table_type" d with
            | Some v => v
            | None => JStr EmptyString
            end).

(** Whether the lower-case type names a balance sheet (line 30). *)
Definition is_balance_sheet (table_type : string) : bool :=
  str_in "balance sheet" table_type
  || str_in "assets and liabilities" table_type.

(** ** What a run sends and lets out *)

Variable find_all_tables : string -> result (list tag).
Variable read_text : string -> result string.

Definition is_print (ev : event) : bool :=
  match ev with
  | Print _ => true
  | WriteFile _ _ => false
  end.

(** The fixed parameters of a request (lines 85 to 88). *)
Definition standard_request (rq : request) : bool :=
  String.eqb (req_model rq) "gpt-4o"
  && String.eqb (req_response_format rq) "json_object"
  && Z.eqb (req_temperature rq) 0.

(** The record [main] builds for a file (line 149). *)
Definition file_record (filename : string) (extracted_tables : list json) : json :=
  JDict [ ("filename", JStr filename);
          ("extracted_tables", JList extracted_tables) ].

(** The tables of a file that are sent to the model (lines 143 to 146),
    or the exception of the read or of the parser. *)
Definition file_tables (file_path : string) : result (list string) :=
  match read_text file_path with
  | inl e => inl e
  | inr content => extract_tables_from_html find_all_tables content
  end.

(** Their number: none for a file that cannot be read or parsed. *)
Definition tables_in (file_path : string) : nat :=
  match file_tables file_path with
  | inr tables => List.length tables
  | inl _ => 0%nat
  end.

(** The files that are read and parsed. *)
Definition usable (file_path : string) : bool :=
  match file_tables file_path with
  | inr _ => true
  | inl _ => false
  end.

(** [record] is the record of [file_path] with one entry per table sent
    to the model. *)
Definition recorded (file_path : string) (record : json) : Prop :=
  exists entries,
    record = file_record (basename file_path) entries
    /\ List.length entries = tables_in file_path.

(** ** The first version *)

(** The one request of [process_table_with_llm] for a table. *)
Definition first_request (table_html filename : string) : request :=
  request_for [ Message "system" V1.system_prompt;
                Message "user" (V1.prompt table_html filename) ].

(** The record it returns when the call or the decoding fails. *)
Definition error_record (e : exn) (snippet : string) : json :=
  JDict [ ("error", JStr (exn_msg e)); ("table_snippet", JStr snippet) ].

End Vocabulary.

(* ================================================================== *)
(** * Concrete collaborators

    Stand-ins for the model, the [json] module and the file system, to
    run the program on given conversations and batches. *)
(* ================================================================== *)

Module Scenario.

(** [json.dumps], for ASCII text. *)
Definition escape_char (c : ascii) : string :=
  let n := nat_of_ascii c in
  if (n =? 34)%nat then String "\" dquote
  else if (n =? 92)%nat then "\\"
  else if (n =? 10)%nat then "\n"
  else if (n =? 13)%nat then "\r"
  else if (n =? 9)%nat then "\t"
  else if (n =? 8)%nat then "\b"
  else if (n =? 12)%nat then "\f"
  else if (n <? 32)%nat then
    "\u00" ++ String (hex_digit (n / 16)) (String (hex_digit (n mod 16)) EmptyString)
  else String c EmptyString.

Fixpoint escape (s : string) : string :=
  match s with
  | EmptyString => EmptyString
  | String c t => escape_char c ++ escape t
  end.

Definition quoted (s : string) : string := dquote ++ escape s ++ dquote.

Fixpoint dumps (v : json) : string :=
  match v with
  | JNull => "null"
  | JBool b => if b then "true" else "false"
  | JInt z => str_of_Z z
  | JFloat f =>
      match Prim2SF f with
      | S754_nan => "NaN"
      | S754_infinity s => if s then "-Infinity" else "Infinity"
      | _ => repr_float f
      end
  | JStr s => quoted s
  | JList l => "[" ++ join ", " (map dumps l) ++ "]"
  | JDict d =>
      "{" ++ join ", " (map (fun kv : string * json =>
                               let '(k, x) := kv in
                               (quoted k ++ ": " ++ dumps x)%string) d) ++ "}"
  end.

(** [json.loads] on the texts of the given values; any other text is
    rejected as [json.JSONDecodeError], a [ValueError]. *)
Definition loads (known : list json) (text : string) : result json :=
  match find (fun v => String.eqb (dumps v) text) known with
  | Some v => inr v
  | None => inl (Raise ValueError "Expecting value: line 1 column 1 (char 0)")
  end.

Definition timeout : exn :=
  Raise (OtherError "APITimeoutError") "Request timed out.".

(** A model that answers its [n]-th request with the [n]-th entry of a
    script, and times out once the script is over. *)
Definition scripted (script : list (result json)) (log : list request) : result string :=
  match nth_error script (List.length log - 1) with
  | Some (inr v) => inr (dumps v)
  | Some (inl e) => inl e
  | None => inl timeout
  end.

(** A model that gives the same answer to every request. *)
Definition always (v : json) (log : list request) : result string := inr (dumps v).

(** The records of the conversations below. *)
Definition operations : json := JDict [ ("table_type", JStr "Operations") ].

Definition good_sheet : json :=
  JDict [ ("table_type", JStr "Balance Sheet");
          ("total_assets", JStr "1,000.00");
          ("total_liabilities", JStr "600");
          ("net_assets", JStr "400") ].

Definition bad_sheet : json :=
  JDict [ ("table_type", JStr "Balance Sheet");
          ("total_assets", JStr "1000");
          ("total_liabilities", JStr "600");
          ("net_assets", JStr "300") ].

Definition empty_sheet : json := JDict [ ("table_type", JStr "Balance Sheet") ].

Definition words_sheet : json :=
  JDict [ ("table_type", JStr "Statement of Assets and Liabilities");
          ("total_assets", JStr "N/A") ].

Definition nan_sheet : json :=
  JDict [ ("table_type", JStr "Balance Sheet"); ("total_assets", JStr "nan") ].

Definition inf_sheet : json :=
  JDict [ ("table_type", JStr "Balance Sheet");
          ("total_assets", JStr "inf");
          ("total_liabilities", JStr "inf") ].

Definition numbered_type : json := JDict [ ("table_type", JInt 5) ].

(** U+00A0, the no-break space, and U+20AC, the euro sign, and U+0663,
    the Arabic-Indic digit three. *)
Definition nbsp : string :=
  String (ascii_of_nat 194) (String (ascii_of_nat 160) EmptyString).

Definition euro : string :=
  String (ascii_of_nat 226) (String (ascii_of_nat 130)
    (String (ascii_of_nat 172) EmptyString)).

Definition arabic_three : string :=
  String (ascii_of_nat 217) (String (ascii_of_nat 163) EmptyString).

Fixpoint copies (n : nat) (s : string) : string :=
  match n with
  | O => EmptyString
  | S n' => s ++ copies n' s
  end.


Definition pending : json :=
  JDict [ ("table_type", JStr "Other"); ("validation_status", JStr "pending") ].

Definition known : list json :=
  [ operations; good_sheet; bad_sheet; empty_sheet; words_sheet; nan_sheet;
    inf_sheet; numbered_type; pending ].

(** A directory of three filings, the second of which cannot be read. *)
Definition path_exists (p : string) : bool := String.eqb p "filings".
Definition path_isdir (p : string) : bool := String.eqb p "filings".
Definition glob_txt (p : string) : list string :=
  [ "filings/a.txt"; "filings/b.txt"; "filings/c.txt" ].

(** [os.path.basename]: what follows the last slash. *)
Fixpoint basename (p : string) : string :=
  match p with
  | EmptyString => EmptyString
  | String c t => if str_in "/" t then basename t
                  else if Ascii.eqb c "/" then t else p
  end.

Definition read_text (p : string) : result string :=
  if String.eqb p "filings/a.txt" then inr "<html>a</html>"
  else if String.eqb p "filings/c.txt" then inr "<html>c</html>"
  else inl (Raise (OtherError "PermissionError")
                  ("[Errno 13] Permission denied: " ++ repr_str p)).

(** The first filing holds two tables of data around a layout table, the
    third one table of data. *)
Definition find_all_tables (file_content : string) : result (list tag) :=
  if String.eqb file_content "<html>a</html>" then
    inr [ Tag 240 "<table>a1</table>"; Tag 12 "<table> </table>";
          Tag 180 "<table>a2</table>" ]
  else inr [ Tag 150 "<table>c1</table>" ].

End Scenario.

(* ================================================================== *)
(** * Properties of the validator *)
(* ================================================================== *)

Lemma number_field_run (d : dict) (k : string) (log : list request) :
  number_field (JDict d) k log = (py_float (field_text d k), log, []).
Proof. reflexivity. Qed.

Lemma py_float_raises_ValueError (s : string) (e : exn) :
  py_float s = inl e -> is_ValueError e = true.
Proof.
  unfold py_float. destruct (parse_float _); intros H; inversion H; reflexivity.
Qed.

(** What the validator does with a record of a balance-sheet type. *)
Lemma validate_balance_sheet (d : dict) (s : string) (log : list request) :
  py_get (JDict d) "table_type" (JStr EmptyString) = inr (JStr s) ->
  str_in "balance sheet" (lower s)
    || str_in "assets and liabilities" (lower s) = true ->
  validate_financial_logic (JDict d) log =
  (inr match py_float (field_text d "total_assets"),
             py_float (field_text d "total_liabilities"),
             py_float (field_text d "net_assets") with
       | inr a, inr l, inr n => audit a l n
       | _, _, _ => Some conversion_error
       end, log, []).
Proof.
  intros Hget Hty. unfold validate_financial_logic.
  unfold bind at 1. unfold lift at 1. rewrite Hget.
  unfold bind at 1. unfold lift at 1. cbn [py_lower].
  rewrite Hty.
  unfold bind at 1. unfold catch.
  unfold bind at 1. rewrite number_field_run.
  destruct (py_float (field_text d "total_assets")) as [e|a] eqn:Ha.
  { rewrite (py_float_raises_ValueError _ _ Ha). reflexivity. }
  unfold bind at 1. rewrite number_field_run.
  destruct (py_float (field_text d "total_liabilities")) as [e|l] eqn:Hl.
  { rewrite (py_float_raises_ValueError _ _ Hl). reflexivity. }
  unfold bind at 1. rewrite number_field_run.
  destruct (py_float (field_text d "net_assets")) as [e|n] eqn:Hn.
  { rewrite (py_float_raises_ValueError _ _ Hn). reflexivity. }
  unfold audit. cbv zeta.
  destruct (1.0 <? abs (a - (l + n)))%float; reflexivity.
Qed.

Lemma validate_other_type (d : dict) (s : string) (log : list request) :
  py_get (JDict d) "table_type" (JStr EmptyString) = inr (JStr s) ->
  str_in "balance sheet" (lower s)
    || str_in "assets and liabilities" (lower s) = false ->
  validate_financial_logic (JDict d) log = (inr None, log, []).
Proof.
  intros Hget Hty. unfold validate_financial_logic.
  unfold bind at 1. unfold lift at 1. rewrite Hget.
  unfold bind at 1. unfold lift at 1. cbn [py_lower].
  rewrite Hty. reflexivity.
Qed.

Lemma validate_not_a_string (d : dict) (v : json) (log : list request) :
  py_get (JDict d) "table_type" (JStr EmptyString) = inr v ->
  (forall s, v <> JStr s) ->
  validate_financial_logic (JDict d) log = (inl (no_attribute v "lower"), log, []).
Proof.
  intros Hget Hv. unfold validate_financial_logic.
  unfold bind at 1. unfold lift at 1. rewrite Hget.
  unfold bind at 1. unfold lift at 1.
  destruct v; try reflexivity. destruct (Hv s); reflexivity.
Qed.

Lemma validate_not_a_dict (data : json) (log : list request) :
  (forall d, data <> JDict d) ->
  validate_financial_logic data log = (inl (no_attribute data "get"), log, []).
Proof.
  intros H. unfold validate_financial_logic.
  unfold bind at 1. unfold lift at 1.
  destruct data; try reflexivity. destruct (H d); reflexivity.
Qed.

(** The validator neither reads nor extends the request log and lets out
    no event: its outcome is a function of the record. *)
Lemma validate_outcome (data : json) :
  exists outcome,
    forall log, validate_financial_logic data log = (outcome, log, []).
Proof.
  destruct data as [ | b | z | f | s | l | d ];
    try (eexists; intros log; apply validate_not_a_dict; discriminate).
  destruct (py_get (JDict d) "table_type" (JStr EmptyString)) as [e|v] eqn:Hget.
  { discriminate. }
  destruct v as [ | b | z | f | s | l | d' ];
    try (eexists; intros log;
         apply (validate_not_a_string _ _ _ Hget); discriminate).
  destruct (str_in "balance sheet" (lower s)
            || str_in "assets and liabilities" (lower s)) eqn:Hty.
  - eexists; intros log. apply (validate_balance_sheet _ _ _ Hget Hty).
  - eexists; intros log. apply (validate_other_type _ _ _ Hget Hty).
Qed.

(** X3. For a mapping whose [table_type] is a string or absent, the
    validator returns a verdict, valid or a reason, and does not raise. *)
Theorem validate_returns (d : dict) (s : string) :
  py_get (JDict d) "table_type" (JStr EmptyString) = inr (JStr s) ->
  exists verdict,
    forall log, validate_financial_logic (JDict d) log = (inr verdict, log, []).
Proof.
  intros Hget.
  destruct (str_in "balance sheet" (lower s)
            || str_in "assets and liabilities" (lower s)) eqn:Hty.
  - eexists; intros log. apply (validate_balance_sheet _ _ _ Hget Hty).
  - eexists; intros log. apply (validate_other_type _ _ _ Hget Hty).
Qed.

(** ** Strings *)

Lemma starts_with_app (p s : string) : starts_with p (p ++ s) = true.
Proof.
  induction p as [|c p IH]; [reflexivity|].
  cbn [append starts_with]. rewrite Ascii.eqb_refl. exact IH.
Qed.

Lemma str_in_here (p s : string) : str_in p (p ++ s) = true.
Proof.
  destruct (p ++ s) eqn:E; cbn [str_in]; rewrite <- E, starts_with_app; reflexivity.
Qed.

Lemma str_in_later (p x s : string) : str_in p s = true -> str_in p (x ++ s) = true.
Proof.
  intros H. induction x as [|c x IH]; [exact H|].
  cbn [append str_in]. rewrite IH. apply orb_true_r.
Qed.

(** ** Comparisons of floats *)

Lemma SFcompare_swap (x y : spec_float) (c : comparison) :
  SFcompare x y = Some c -> SFcompare y x = Some (CompOpp c).
Proof.
  destruct x as [sx|sx| |sx mx ex], y as [sy|sy| |sy my ey]; cbn [SFcompare];
    try discriminate;
    try (destruct sx; intros H; injection H as <-; reflexivity);
    try (destruct sy; intros H; injection H as <-; reflexivity);
    try (destruct sx, sy; intros H; injection H as <-; reflexivity).
  intros H; injection H as <-. f_equal.
  rewrite (Z.compare_antisym ey ex).
  destruct sx, sy; try reflexivity; destruct (ey ?= ex)%Z; cbn [CompOpp]; try reflexivity.
  - rewrite (Pos.compare_cont_antisym mx my Eq). reflexivity.
  - rewrite (Pos.compare_cont_antisym mx my Eq). reflexivity.
Qed.

Lemma SFcompare_defined (x y : spec_float) :
  x <> S754_nan -> y <> S754_nan -> exists c, SFcompare x y = Some c.
Proof.
  destruct x, y; cbn [SFcompare]; intros Hx Hy;
    try contradiction; eauto.
Qed.

(** A float is a number when it is equal to itself. *)
Lemma not_nan_spec (x : float) :
  (x =? x)%float = true -> Prim2SF x <> S754_nan.
Proof.
  rewrite eqb_spec. intros H E. rewrite E in H. discriminate.
Qed.

(** For two numbers, [x > y] fails exactly when [x <= y]. *)
Lemma ltb_false_leb (x y : float) :
  (x =? x)%float = true -> (y =? y)%float = true ->
  ((y <? x)%float = false <-> (x <=? y)%float = true).
Proof.
  intros Hx Hy. apply not_nan_spec in Hx, Hy.
  rewrite ltb_spec, leb_spec. unfold SFltb, SFleb.
  destruct (SFcompare_defined _ _ Hx Hy) as [c Hc].
  rewrite Hc, (SFcompare_swap _ _ _ Hc).
  destruct c; cbn [CompOpp]; split; intros; congruence.
Qed.

(** ** The texts [float] reads *)



















(** ** What the specification states about the validator *)

(** C3, on the code: a mapping whose [table_type] is a number makes the
    validator raise [AttributeError] (line 28 stands before the [try]);
    so does a [table_type] of [null]. *)
Theorem non_string_table_type_raises :
  validate_financial_logic (JDict [ ("table_type", JInt 5) ]) []
  = (inl (Raise AttributeError "'int' object has no attribute 'lower'"), [], [])
  /\ validate_financial_logic (JDict [ ("table_type", JNull) ]) []
     = (inl (Raise AttributeError "'NoneType' object has no attribute 'lower'"), [], []).
Proof. split; reflexivity. Qed.

(** C4. A record whose [table_type], in lower case, contains neither
    [balance sheet] nor [assets and liabilities] is valid, whatever else
    the record holds. *)
Theorem other_table_types_are_valid (d : dict) (s : string) (log : list request) :
  py_get (JDict d) "table_type" (JStr EmptyString) = inr (JStr s) ->
  str_in "balance sheet" (lower s) = false ->
  str_in "assets and liabilities" (lower s) = false ->
  validate_financial_logic (JDict d) log = (inr None, log, []).
Proof.
  intros Hget H1 H2. apply (validate_other_type d s log Hget).
  rewrite H1, H2. reflexivity.
Qed.

(** C5, on the code: a balance sheet whose [total_assets] reads [nan] is
    judged valid, although the three fields coerce (to [nan], [0.0] and
    [0.0]) and the difference is not within the tolerance; likewise when
    assets and liabilities both read [inf]. *)
Theorem nan_difference_is_accepted :
  let d1 := [ ("table_type", JStr "Balance Sheet"); ("total_assets", JStr "nan") ] in
  let d2 := [ ("table_type", JStr "Balance Sheet"); ("total_assets", JStr "inf");
              ("total_liabilities", JStr "inf") ] in
  (validate_financial_logic (JDict d1) [] = (inr None, [], [])
   /\ py_float (field_text d1 "total_assets") = inr nan
   /\ py_float (field_text d1 "total_liabilities") = inr 0%float
   /\ py_float (field_text d1 "net_assets") = inr 0%float
   /\ (abs (nan - (0 + 0)) <=? 1.0)%float = false)
  /\
  (validate_financial_logic (JDict d2) [] = (inr None, [], [])
   /\ py_float (field_text d2 "total_assets") = inr infinity
   /\ py_float (field_text d2 "total_liabilities") = inr infinity
   /\ py_float (field_text d2 "net_assets") = inr 0%float
   /\ (abs (infinity - (infinity + 0)) <=? 1.0)%float = false).
Proof. repeat split; vm_compute; reflexivity. Qed.

(** X1. The consistency rule, where the computed difference is a number.
    For a record of a balance-sheet type whose three fields coerce to
    [a], [l] and [n], with [difference = |a - (l + n)|] computed in
    floating point: the validator rejects exactly when [difference > 1.0],
    with the reason that embeds the three operands and the difference;
    and when [difference] is not NaN, it accepts exactly when
    [difference <= 1.0]. *)
Theorem balance_rule_on_numbers (d : dict) (s : string) (log : list request)
    (a l n : float) :
  py_get (JDict d) "table_type" (JStr EmptyString) = inr (JStr s) ->
  str_in "balance sheet" (lower s)
    || str_in "assets and liabilities" (lower s) = true ->
  py_float (field_text d "total_assets") = inr a ->
  py_float (field_text d "total_liabilities") = inr l ->
  py_float (field_text d "net_assets") = inr n ->
  let difference := abs (a - (l + n))%float in
  let reason := math_error a l n difference in
  ((1.0 <? difference)%float = true ->
   validate_financial_logic (JDict d) log = (inr (Some reason), log, []))
  /\ ((1.0 <? difference)%float = false ->
      validate_financial_logic (JDict d) log = (inr None, log, []))
  /\ ((difference =? difference)%float = true ->
      (validate_financial_logic (JDict d) log = (inr None, log, [])
       <-> (difference <=? 1.0)%float = true))
  /\ str_in (repr_float a) reason = true
  /\ str_in (repr_float l) reason = true
  /\ str_in (repr_float n) reason = true
  /\ str_in (repr_float difference) reason = true.
Proof.
  intros Hget Hty Ha Hl Hn difference reason.
  pose proof (validate_balance_sheet d s log Hget Hty) as Hrun.
  rewrite Ha, Hl, Hn in Hrun. unfold audit in Hrun. cbv zeta in Hrun.
  fold difference in Hrun. fold reason in Hrun.
  split; [|split; [|split]].
  - intros Hgt. rewrite Hgt in Hrun. exact Hrun.
  - intros Hle. rewrite Hle in Hrun. exact Hrun.
  - intros Hnum.
    rewrite <- (ltb_false_leb difference 1.0 Hnum eq_refl).
    destruct (1.0 <? difference)%float; rewrite Hrun; split; intros H;
      congruence.
  - unfold reason, math_error.
    repeat split;
      repeat first [ apply str_in_here | apply str_in_later ].
Qed.


(** C8. The validator is a function of the record alone: whatever the
    state of the process, a call returns the same outcome, leaves the
    request log as it was and lets out no event; so two calls in a row
    on the same record give the same outcome twice. *)
Theorem validator_is_pure (data : json) :
  exists outcome,
    (forall log, validate_financial_logic data log = (outcome, log, []))
    /\ (forall log,
          (first <- catch (validate_financial_logic data) ;;
           second <- catch (validate_financial_logic data) ;;
           ret (first, second)) log
          = (inr (outcome, outcome), log, [])).
Proof.
  destruct (validate_outcome data) as [outcome H].
  exists outcome. split; [exact H|].
  intros log. unfold bind, catch, ret. rewrite !H. reflexivity.
Qed.

(* ================================================================== *)
(** * Dictionaries *)
(* ================================================================== *)

Lemma dict_get_set_same (k : string) (v : json) (d : dict) :
  dict_get k (dict_set k v d) = Some v.
Proof.
  induction d as [|[k' v'] t IH]; cbn [dict_set dict_get].
  - rewrite String.eqb_refl. reflexivity.
  - destruct (String.eqb k' k) eqn:E; cbn [dict_get].
    + rewrite String.eqb_refl. reflexivity.
    + rewrite E. exact IH.
Qed.

Lemma dict_get_set_other (k k' : string) (v : json) (d : dict) :
  k <> k' -> dict_get k' (dict_set k v d) = dict_get k' d.
Proof.
  intros Hne. induction d as [|[k0 v0] t IH]; cbn [dict_set dict_get].
  - destruct (String.eqb_spec k k'); [contradiction | reflexivity].
  - destruct (String.eqb_spec k0 k) as [->|Hk0]; cbn [dict_get].
    + destruct (String.eqb_spec k k'); [contradiction | reflexivity].
    + rewrite IH. reflexivity.
Qed.

Lemma dict_set_new (k : string) (v : json) (d : dict) :
  dict_get k d = None -> dict_set k v d = (d ++ [(k, v)])%list.
Proof.
  induction d as [|[k0 v0] t IH]; cbn [dict_set dict_get]; intros H.
  - reflexivity.
  - destruct (String.eqb k0 k); [discriminate|].
    rewrite (IH H). reflexivity.
Qed.

Lemma dict_set_present (k : string) (v : json) (d : dict) :
  dict_get k d <> None -> List.length (dict_set k v d) = List.length d.
Proof.
  induction d as [|[k0 v0] t IH]; cbn [dict_set dict_get]; intros H.
  - contradiction.
  - destruct (String.eqb k0 k); cbn [List.length]; [reflexivity|].
    rewrite (IH H). reflexivity.
Qed.

(* ================================================================== *)
(** * Properties of the extraction session *)
(* ================================================================== *)

Section Session.

Variable gateway : list request -> result string.
Variable json_loads : string -> result json.
Variable json_dumps : json -> string.

Local Abbreviation response_record := (response_record gateway json_loads).
Local Abbreviation rejections := (rejections gateway json_loads json_dumps).
Local Abbreviation loop_end := (loop_end gateway json_loads).

(** ** Single attempts *)

Lemma validate_run (data : json) (log : list request) :
  validate_financial_logic data log = (verdict data, log, []).
Proof.
  unfold verdict. destruct (validate_outcome data) as [o Ho].
  rewrite (Ho log), (Ho []). reflexivity.
Qed.

Lemma verdict_dict (data : json) (v : option string) :
  verdict data = inr v -> exists d, data = JDict d.
Proof.
  unfold verdict. destruct data; try discriminate. eauto.
Qed.

(** One pass through the loop body, case by case. *)
Lemma attempt_body_run (attempt : nat) (l : locals) (log : list request) :
  attempt_body gateway json_loads json_dumps attempt l log =
  let log1 := (log ++ [request_for (messages l)])%list in
  match response_record log1 with
  | inl e => (inr (Break l), log1, [attempt_line attempt; api_error_line e])
  | inr data =>
      let l1 := Locals (messages l) (Some data) in
      match verdict data with
      | inl e => (inr (Break l1), log1, [attempt_line attempt; api_error_line e])
      | inr (Some reason) =>
          (inr (Continue
                  (Locals (messages l ++ [assistant_turn json_dumps data; audit_turn reason])
                          (Some data))),
           log1,
           [attempt_line attempt; Print ("      ! Validation Failed: " ++ reason)])
      | inr None =>
          match stamp data attempt with
          | inr v => (inr (Return v), log1, [attempt_line attempt])
          | inl e => (inr (Break l1), log1, [attempt_line attempt; api_error_line e])
          end
      end
  end.
Proof.
  unfold attempt_body, response_record, chat_completions_create, request_for, stamp.
  cbv zeta. unfold bind at 1. unfold print at 1.
  unfold bind at 1. unfold catch at 1. unfold bind at 1.
  destruct (gateway _) as [e|text]; [reflexivity|].
  unfold lift at 1.
  destruct (json_loads text) as [e|data]; [reflexivity|].
  unfold bind at 1. unfold catch at 1. rewrite validate_run.
  destruct (verdict data) as [e|[reason|]]; [reflexivity|reflexivity|].
  unfold bind at 1. unfold catch at 1. unfold bind at 1. unfold lift at 1.
  destruct (py_setitem data _ _) as [e|d1]; [reflexivity|].
  unfold lift at 1.
  destruct (py_setitem d1 _ _) as [e|d2]; reflexivity.
Qed.

Lemma loop_end_later (a : nat) (attempts : list nat) log l k x log' :
  loop_end attempts log l k x log' ->
  loop_end (a :: attempts) log l (S k) x log'.
Proof.
  intros H. destruct H.
  - apply end_exhausted. simpl. congruence.
  - eapply end_accepted; eauto.
  - eapply end_gateway_fault; eauto. simpl. lia.
  - eapply end_validator_fault; eauto. simpl. lia.
Qed.

Lemma stamp_dict (d : dict) (attempt : nat) :
  stamp (JDict d) attempt =
  inr (JDict (dict_set "attempts_needed" (JInt (Z.of_nat (attempt + 1)))
                (dict_set "validation_status" (JStr "passed") d))).
Proof. reflexivity. Qed.

(** Every run of the loop is some rejections followed by one ending; the
    loop itself never raises. *)
Lemma attempts_loop_shape (attempts : list nat) :
  forall (l : locals) (log : list request),
  exists k log_k l_k x log' out,
    attempts_loop gateway json_loads json_dumps attempts l log = (inr x, log', out)
    /\ (k <= List.length attempts)%nat
    /\ rejections log l k log_k l_k
    /\ loop_end attempts log_k l_k k x log'.
Proof.
  induction attempts as [|a rest IH]; intros l log.
  - exists 0%nat, log, l, (inl l), log, []. repeat split.
    + lia.
    + constructor.
    + constructor. reflexivity.
  - cbn [attempts_loop]. unfold bind at 1. rewrite attempt_body_run. cbv zeta.
    set (log1 := (log ++ [request_for (messages l)])%list).
    destruct (response_record log1) as [e|data] eqn:Hrec.
    { exists 0%nat, log, l, (inl l), log1. eexists. repeat split.
      - simpl; lia.
      - constructor.
      - eapply end_gateway_fault; eauto. simpl; lia. }
    destruct (verdict data) as [e|[reason|]] eqn:Hv.
    + exists 0%nat, log, l, (inl (Locals (messages l) (Some data))), log1.
      eexists. repeat split.
      * simpl; lia.
      * constructor.
      * eapply end_validator_fault; eauto. simpl; lia.
    + destruct (IH (Locals (messages l ++ [assistant_turn json_dumps data; audit_turn reason])
                           (Some data)) log1)
        as (k & log_k & l_k & x & log' & out & Hrun & Hk & Hrej & Hend).
      rewrite Hrun.
      exists (S k), log_k, l_k, x, log'. eexists. repeat split.
      * simpl; lia.
      * eapply rejections_more; eauto.
      * apply loop_end_later; exact Hend.
    + destruct (verdict_dict _ _ Hv) as [d ->].
      rewrite stamp_dict.
      exists 0%nat, log, l. eexists. exists log1. eexists. repeat split.
      * simpl; lia.
      * constructor.
      * eapply end_accepted; [reflexivity | exact Hrec | exact Hv | reflexivity].
Qed.

(** ** What [k] rejections leave behind *)

(** The log grows by [k] requests, one per rejected attempt. *)
Lemma rejections_log log l k log' l' :
  rejections log l k log' l' ->
  exists sent, log' = (log ++ sent)%list /\ List.length sent = k.
Proof.
  induction 1 as [log l | log l data reason k log' l' Hrec Hv Hrej IH].
  - exists []. split; [symmetry; apply app_nil_r | reflexivity].
  - destruct IH as (sent & -> & Hlen).
    exists (request_for (messages l) :: sent). split.
    + rewrite <- app_assoc. reflexivity.
    + simpl. congruence.
Qed.


(** After at least one rejection, [extracted_data] holds the record of the
    latest response, which the validator rejected. *)
Lemma rejections_last log l k log' l' :
  rejections log l (S k) log' l' ->
  exists data reason,
    extracted_data l' = Some data
    /\ response_record log' = inr data
    /\ verdict data = inr (Some reason).
Proof.
  remember (S k) as n eqn:Hn. intros H. revert k Hn.
  induction H as [log l | log l data reason k' log' l' Hrec Hv Hrej IH];
    intros k Hn; [discriminate|].
  injection Hn as ->.
  destruct k as [|k].
  - inversion Hrej; subst. exists data, reason. auto.
  - eapply IH. reflexivity.
Qed.


(** ** The session as a whole *)

(** A session is some rejections, then one ending of the loop, then
    lines 116 and 117 when the loop was left without a [return]. *)
Lemma process_table_shape (table_html filename : string) (log : list request) :
  exists k log_k l_k x log' out,
    (k <= MAX_RETRIES)%nat
    /\ rejections log (Locals (seed table_html filename) None) k log_k l_k
    /\ loop_end (seq 0 MAX_RETRIES) log_k l_k k x log'
    /\ process_table_agentic_loop gateway json_loads json_dumps table_html filename log =
       match x with
       | inr v => (inr v, log', out)
       | inl l =>
           (match extracted_data l with
            | Some data => inr (failure_record data)
            | None => inl (unbound_local "extracted_data")
            end, log', (out ++ [exhausted_line])%list)
       end.
Proof.
  destruct (attempts_loop_shape (seq 0 MAX_RETRIES)
              (Locals (seed table_html filename) None) log)
    as (k & log_k & l_k & x & log' & out & Hrun & Hk & Hrej & Hend).
  exists k, log_k, l_k, x, log', out. repeat split; auto.
  unfold process_table_agentic_loop. cbv zeta. fold (seed table_html filename).
  unfold bind at 1. rewrite Hrun.
  destruct x as [l|v]; [|unfold ret; rewrite app_nil_r; reflexivity].
  unfold bind at 1. unfold print at 1.
  destruct (extracted_data l); reflexivity.
Qed.

Lemma nth_error_attempts (k attempt : nat) :
  nth_error (seq 0 MAX_RETRIES) k = Some attempt ->
  attempt = k /\ (k < MAX_RETRIES)%nat.
Proof.
  unfold MAX_RETRIES. destruct k as [|[|[|k]]]; simpl; intros H;
    try (injection H as <-; split; [reflexivity | lia]).
  destruct k; discriminate.
Qed.

Lemma field_stamp (d : dict) (attempt : nat) (v : json) :
  stamp (JDict d) attempt = inr v ->
  field "validation_status" v = Some (JStr "passed")
  /\ field "attempts_needed" v = Some (JInt (Z.of_nat (attempt + 1))).
Proof.
  rewrite stamp_dict. intros H; injection H as <-. cbn [field]. split.
  - rewrite dict_get_set_other by discriminate. apply dict_get_set_same.
  - apply dict_get_set_same.
Qed.





(** A session that returns a record marked as passed left the loop by
    the [return] of line 98. *)
Lemma accepted_session (table_html filename : string) (log : list request) v log' out :
  process_table_agentic_loop gateway json_loads json_dumps table_html filename log
  = (inr v, log', out) ->
  field "validation_status" v = Some (JStr "passed") ->
  exists attempt payload,
    (attempt < MAX_RETRIES)%nat
    /\ response_record log' = inr (JDict payload)
    /\ verdict (JDict payload) = inr None
    /\ stamp (JDict payload) attempt = inr v.
Proof.
  intros Hres Hpassed.
  destruct (process_table_shape table_html filename log)
    as (k & log_k & l_k & x & log'' & out' & Hk & Hrej & Hend & Hrun).
  rewrite Hrun in Hres.
  destruct Hend as [Hlen | attempt data v' Hnth Hrec Hv Hst | e Hlt Hrec | data e Hlt Hrec Hv].
  - destruct (extracted_data l_k); [|discriminate].
    injection Hres as <- _ _. discriminate.
  - injection Hres as <- <- _.
    destruct (nth_error_attempts _ _ Hnth) as [-> Hlt].
    destruct (verdict_dict _ _ Hv) as [d ->].
    exists k, d. auto.
  - destruct (extracted_data l_k); [|discriminate].
    injection Hres as <- _ _. discriminate.
  - cbn [extracted_data] in Hres. injection Hres as <- _ _. discriminate.
Qed.

(** C10, as amended.  The record an accepted session returns is the
    decoded payload of the accepted response with [validation_status] set
    to [passed] and [attempts_needed] set to the number of the attempt:
    every field under another key is as the model gave it, and a payload
    that has neither key comes back in its order with exactly these two
    fields after it. *)
Theorem accepted_record_frame
    (table_html filename : string) (log : list request) v log' out :
  process_table_agentic_loop gateway json_loads json_dumps table_html filename log
  = (inr v, log', out) ->
  field "validation_status" v = Some (JStr "passed") ->
  exists payload k,
    response_record log' = inr (JDict payload)
    /\ (1 <= k <= MAX_RETRIES)%nat
    /\ field "validation_status" v = Some (JStr "passed")
    /\ field "attempts_needed" v = Some (JInt (Z.of_nat k))
    /\ (forall key, key <> "validation_status" -> key <> "attempts_needed" ->
          field key v = dict_get key payload)
    /\ (dict_get "validation_status" payload = None ->
        dict_get "attempts_needed" payload = None ->
        v = JDict (payload ++ [ ("validation_status", JStr "passed");
                                ("attempts_needed", JInt (Z.of_nat k)) ])).
Proof.
  intros Hres Hpassed.
  destruct (accepted_session _ _ _ _ _ _ Hres Hpassed)
    as (attempt & payload & Hlt & Hrec & Hv & Hst).
  exists payload, (attempt + 1)%nat.
  destruct (field_stamp _ _ _ Hst) as [Hstatus Hneeded].
  rewrite stamp_dict in Hst. injection Hst as <-.
  split; [exact Hrec|]. split; [lia|]. split; [exact Hstatus|]. split; [exact Hneeded|].
  split.
  - intros key H1 H2. cbn [field].
    rewrite dict_get_set_other by congruence.
    rewrite dict_get_set_other by congruence. reflexivity.
  - intros H1 H2.
    rewrite (dict_set_new "validation_status" _ payload H1).
    rewrite dict_set_new.
    + rewrite <- app_assoc. reflexivity.
    + rewrite <- (dict_set_new "validation_status" (JStr "passed") payload H1).
      rewrite dict_get_set_other by discriminate. exact H2.
Qed.

(** After [k] rejected attempts the loop goes on with what they left. *)
Lemma attempts_loop_after_rejections log l k log_k l_k :
  rejections log l k log_k l_k ->
  forall pre rest, List.length pre = k ->
  exists out_pre,
    attempts_loop gateway json_loads json_dumps (pre ++ rest) l log =
    let '(r, lg, o) := attempts_loop gateway json_loads json_dumps rest l_k log_k in
    (r, lg, (out_pre ++ o)%list).
Proof.
  induction 1 as [log l | log l data reason k log' l' Hrec Hv Hrej IH];
    intros pre rest Hlen.
  - destruct pre; [|discriminate]. exists []. cbn [app].
    destruct (attempts_loop _ _ _ rest l log) as [[r lg] o]. reflexivity.
  - destruct pre as [|a pre]; [discriminate|]. injection Hlen as Hlen.
    destruct (IH pre rest Hlen) as (out_pre & Hloop).
    exists ([attempt_line a; Print ("      ! Validation Failed: " ++ reason)] ++ out_pre)%list.
    cbn [app attempts_loop]. unfold bind at 1.
    rewrite attempt_body_run. cbv zeta. rewrite Hrec, Hv. rewrite Hloop.
    destruct (attempts_loop _ _ _ rest l' log') as [[r lg] o]. reflexivity.
Qed.

(** X2. A fault of the call to the model or of the decoding of its
    response ends the session with the request that met it, whatever
    attempts remain: when a record had been decoded on an earlier
    attempt, the session returns the failure record with that record;
    when none had, the [return] of line 117 reads a variable that was
    never assigned, and the session raises. *)
Theorem fault_ends_session (table_html filename : string) (log log_k : list request)
    (k : nat) (l_k : locals) (e : exn) :
  rejections log (Locals (seed table_html filename) None) k log_k l_k ->
  (k < MAX_RETRIES)%nat ->
  response_record (log_k ++ [request_for (messages l_k)]) = inl e ->
  exists out,
    process_table_agentic_loop gateway json_loads json_dumps table_html filename log
    = (match extracted_data l_k with
       | Some data => inr (failure_record data)
       | None => inl (unbound_local "extracted_data")
       end,
       (log_k ++ [request_for (messages l_k)])%list, out).
Proof.
  intros Hrej Hlt Hfault.
  destruct (attempts_loop_after_rejections _ _ _ _ _ Hrej
              (seq 0 k) (seq k (MAX_RETRIES - k)) (length_seq _ _)) as (out_pre & Hloop).
  rewrite <- seq_app in Hloop.
  replace (k + (MAX_RETRIES - k))%nat with MAX_RETRIES in Hloop by lia.
  destruct (MAX_RETRIES - k)%nat as [|n] eqn:E; [lia|].
  cbn [seq attempts_loop] in Hloop. unfold bind at 1 in Hloop.
  rewrite attempt_body_run in Hloop. cbv zeta in Hloop. rewrite Hfault in Hloop.
  unfold ret in Hloop.
  unfold process_table_agentic_loop. cbv zeta. fold (seed table_html filename).
  unfold bind at 1. rewrite Hloop.
  unfold bind at 1. unfold print at 1.
  destruct (extracted_data l_k); eexists; reflexivity.
Qed.

End Session.

(* ================================================================== *)
(** * Properties of the batch driver *)
(* ================================================================== *)

Section Batch.

Variable gateway : list request -> result string.
Variable json_loads : string -> result json.
Variable json_dumps : json -> string.
Variable find_all_tables : string -> result (list tag).
Variable path_exists : string -> bool.
Variable path_isdir : string -> bool.
Variable glob_txt : string -> list string.
Variable basename : string -> string.
Variable read_text : string -> result string.

Let run_file := process_file gateway json_loads json_dumps find_all_tables basename read_text.
Let run_files := files_loop gateway json_loads json_dumps find_all_tables basename read_text.

Local Abbreviation files_of := (batch_files path_isdir glob_txt).
Local Abbreviation output_of := (output_filename path_isdir basename).

(** One pass through the loop over the files. *)
Lemma files_loop_step (file_path : string) (rest : list string)
    (all_data : list json) (log : list request) :
  run_files (file_path :: rest) all_data log =
  match run_file file_path log with
  | (inr file_record, log1, out1) =>
      let '(r, log2, out2) := run_files rest (all_data ++ [file_record]) log1 in
      (r, log2, (processing_line file_path :: out1 ++ out2)%list)
  | (inl e, log1, out1) =>
      let '(r, log2, out2) := run_files rest all_data log1 in
      (r, log2, (processing_line file_path :: out1 ++ failed_line file_path e :: out2)%list)
  end.
Proof.
  unfold run_files, run_file. cbn [files_loop].
  unfold bind at 1. unfold print at 1. unfold bind at 1. unfold catch at 1.
  destruct (process_file _ _ _ _ _ _ file_path log) as [[[e|file_record] log1] out1].
  - unfold bind at 1. unfold print at 1.
    destruct (files_loop _ _ _ _ _ _ rest all_data log1) as [[r log2] out2].
    reflexivity.
  - destruct (files_loop _ _ _ _ _ _ rest _ log1) as [[r log2] out2].
    reflexivity.
Qed.

(** The loop over the files never raises. *)
Lemma files_loop_returns (files : list string) :
  forall all_data log, exists acc log' out,
    run_files files all_data log = (inr acc, log', out).
Proof.
  induction files as [|f rest IH]; intros all_data log.
  - exists all_data, log, []. reflexivity.
  - rewrite files_loop_step.
    destruct (run_file f log) as [[[e|file_record] log1] out1].
    + destruct (IH all_data log1) as (acc & log' & out & ->). eauto.
    + destruct (IH (all_data ++ [file_record])%list log1) as (acc & log' & out & ->). eauto.
Qed.






End Batch.

(* ================================================================== *)
(** * Further properties of the validator *)
(* ================================================================== *)

Lemma table_type_of_string (d : dict) (t : string) :
  table_type_of d = inr t ->
  exists s, py_get (JDict d) "table_type" (JStr EmptyString) = inr (JStr s)
            /\ lower s = t.
Proof.
  unfold table_type_of. cbn [py_get].
  destruct (match dict_get "table_type" d with Some v => v | None => JStr EmptyString end)
    as [ | b | z | f | s | l | d0 ]; cbn [py_lower]; intros H; try discriminate.
  injection H as <-. eauto.
Qed.

Lemma table_type_of_fault (d : dict) (e : exn) (log : list request) :
  table_type_of d = inl e ->
  validate_financial_logic (JDict d) log = (inl e, log, [])
  /\ exn_kind e = AttributeError
  /\ exists v, py_get (JDict d) "table_type" (JStr EmptyString) = inr v
               /\ forall s, v <> JStr s.
Proof.
  unfold table_type_of. intros H.
  assert (Hget : py_get (JDict d) "table_type" (JStr EmptyString)
                 = inr (match dict_get "table_type" d with
                        | Some v => v | None => JStr EmptyString end)) by reflexivity.
  destruct (match dict_get "table_type" d with Some v => v | None => JStr EmptyString end)
    as [ | b | z | f | s | l | d0 ] eqn:E; cbn [py_lower] in H; try discriminate;
    injection H as <-;
    (split; [apply (validate_not_a_string _ _ _ Hget); discriminate
            | split; [reflexivity | eexists; split; [exact Hget | discriminate]]]).
Qed.

(** X4. The outcomes of the validator.  It raises only [AttributeError], and
    only for a value that is not a mapping or a mapping whose
    [table_type] is not a string.  A reason it returns is the coercion
    reason or a math reason for operands whose difference exceeds 1.0,
    and only for a record of a balance-sheet type: the reason of the
    handler [except Exception] is never returned. *)
Theorem validator_outcomes (data : json) (log : list request) :
  exists outcome,
    validate_financial_logic data log = (outcome, log, [])
    /\ match outcome with
       | inl e =>
           exn_kind e = AttributeError
           /\ ((forall d, data <> JDict d)
               \/ exists d v,
                    data = JDict d
                    /\ py_get data "table_type" (JStr EmptyString) = inr v
                    /\ forall s, v <> JStr s)
       | inr None => exists d, data = JDict d
       | inr (Some reason) =>
           exists d t,
             data = JDict d /\ table_type_of d = inr t /\ is_balance_sheet t = true
             /\ (reason = conversion_error
                 \/ exists a l n,
                      py_float (field_text d "total_assets") = inr a
                      /\ py_float (field_text d "total_liabilities") = inr l
                      /\ py_float (field_text d "net_assets") = inr n
                      /\ (1.0 <? abs (a - (l + n)))%float = true
                      /\ reason = math_error a l n (abs (a - (l + n)))%float)
       end.
Proof.
  destruct data as [ | b | z | f | s | l | d ];
    try (eexists; split; [apply validate_not_a_dict; discriminate|];
         split; [reflexivity | left; discriminate]).
  destruct (table_type_of d) as [e|t] eqn:Ht.
  - destruct (table_type_of_fault d e log Ht) as (Hrun & Hkind & v & Hget & Hv).
    exists (inl e). split; [exact Hrun|]. split; [exact Hkind|].
    right. exists d, v. auto.
  - destruct (table_type_of_string d t Ht) as (s & Hget & <-).
    destruct (is_balance_sheet (lower s)) eqn:Hty.
    + eexists. split; [apply (validate_balance_sheet d s log Hget Hty)|].
      assert (Hconv : exists d0 t,
                 JDict d = JDict d0 /\ table_type_of d0 = inr t
                 /\ is_balance_sheet t = true
                 /\ (conversion_error = conversion_error
                     \/ exists a l n,
                          py_float (field_text d0 "total_assets") = inr a
                          /\ py_float (field_text d0 "total_liabilities") = inr l
                          /\ py_float (field_text d0 "net_assets") = inr n
                          /\ (1.0 <? abs (a - (l + n)))%float = true
                          /\ conversion_error = math_error a l n (abs (a - (l + n)))%float)).
      { exists d, (lower s). auto. }
      destruct (py_float (field_text d "total_assets")) as [e1|a] eqn:Ha;
        [exact Hconv|].
      destruct (py_float (field_text d "total_liabilities")) as [e2|l0] eqn:Hl;
        [exact Hconv|].
      destruct (py_float (field_text d "net_assets")) as [e3|n] eqn:Hn;
        [exact Hconv|].
      unfold audit. cbv zeta.
      destruct (1.0 <? abs (a - (l0 + n)))%float eqn:Hgt; [|cbv iota; eauto].
      exists d, (lower s). repeat split; auto.
      right. exists a, l0, n. auto.
    + eexists. split; [apply (validate_other_type d s log Hget Hty)|].
      cbv iota. eauto.
Qed.

Lemma validate_congruence (d d' : dict) (log : list request) :
  table_type_of d = table_type_of d' ->
  field_text d "total_assets" = field_text d' "total_assets" ->
  field_text d "total_liabilities" = field_text d' "total_liabilities" ->
  field_text d "net_assets" = field_text d' "net_assets" ->
  validate_financial_logic (JDict d) log = validate_financial_logic (JDict d') log.
Proof.
  intros Ht Ha Hl Hn.
  destruct (table_type_of d) as [e|t] eqn:E.
  - symmetry in Ht.
    destruct (table_type_of_fault d e log E) as (-> & _).
    destruct (table_type_of_fault d' e log Ht) as (-> & _). reflexivity.
  - symmetry in Ht.
    destruct (table_type_of_string d t E) as (s & Hget & Hs).
    destruct (table_type_of_string d' t Ht) as (s' & Hget' & Hs').
    destruct (is_balance_sheet t) eqn:Hty; unfold is_balance_sheet in Hty.
    + rewrite (validate_balance_sheet d s log Hget) by (rewrite Hs; exact Hty).
      rewrite (validate_balance_sheet d' s' log Hget') by (rewrite Hs'; exact Hty).
      rewrite Ha, Hl, Hn. reflexivity.
    + rewrite (validate_other_type d s log Hget) by (rewrite Hs; exact Hty).
      rewrite (validate_other_type d' s' log Hget') by (rewrite Hs'; exact Hty).
      reflexivity.
Qed.

(** A write under any other key leaves the outcome as it was. *)
Lemma validate_after_other_key (d : dict) (k : string) (v : json) (log : list request) :
  ~ In k ["table_type"; "total_assets"; "total_liabilities"; "net_assets"] ->
  validate_financial_logic (JDict (dict_set k v d)) log
  = validate_financial_logic (JDict d) log.
Proof.
  intros Hk.
  assert (Hget : forall k', In k' ["table_type"; "total_assets"; "total_liabilities"; "net_assets"] ->
                   dict_get k' (dict_set k v d) = dict_get k' d).
  { intros k' Hin. apply dict_get_set_other. intros ->. exact (Hk Hin). }
  apply validate_congruence; unfold table_type_of, field_text;
    rewrite Hget; try reflexivity; simpl; tauto.
Qed.

(** X5. The validator reads a mapping through four keys only, the type up
    to letter case and each financial field up to commas: two mappings
    with the same lower-case [table_type] and the same texts of the three
    fields once commas are removed get the same outcome; so the value
    under any other key, present or not, never changes the outcome. *)
Theorem validator_reads_four_fields (d d' : dict) (log : list request) :
  (table_type_of d = table_type_of d' ->
   field_text d "total_assets" = field_text d' "total_assets" ->
   field_text d "total_liabilities" = field_text d' "total_liabilities" ->
   field_text d "net_assets" = field_text d' "net_assets" ->
   validate_financial_logic (JDict d) log = validate_financial_logic (JDict d') log)
  /\ (forall k v,
        ~ In k ["table_type"; "total_assets"; "total_liabilities"; "net_assets"] ->
        validate_financial_logic (JDict (dict_set k v d)) log
        = validate_financial_logic (JDict d) log).
Proof.
  split.
  - apply validate_congruence.
  - intros k v. apply validate_after_other_key.
Qed.

Lemma is_nan_Prim2SF (x : float) : is_nan x = true -> Prim2SF x = S754_nan.
Proof. intros H. unfold Prim2SF. rewrite H. reflexivity. Qed.

(** With a NaN among the operands the difference is NaN, and no NaN is
    greater than 1.0. *)
Lemma nan_difference_not_greater (a l n : float) :
  is_nan a || is_nan l || is_nan n = true ->
  (1.0 <? abs (a - (l + n)))%float = false.
Proof.
  intros H.
  assert (Hdiff : Prim2SF (a - (l + n))%float = S754_nan).
  { rewrite sub_spec, add_spec. unfold SF64sub, SF64add.
    apply orb_true_iff in H. destruct H as [H|H].
    - apply orb_true_iff in H. destruct H as [H|H].
      + rewrite (is_nan_Prim2SF a H). reflexivity.
      + rewrite (is_nan_Prim2SF l H). cbn [SFadd].
        destruct (Prim2SF a); reflexivity.
    - rewrite (is_nan_Prim2SF n H).
      replace (SFadd prec emax (Prim2SF l) S754_nan) with S754_nan
        by (destruct (Prim2SF l); reflexivity).
      destruct (Prim2SF a); reflexivity. }
  rewrite ltb_spec, abs_spec, Hdiff. cbn [SFabs]. unfold SFltb.
  destruct (Prim2SF 1); reflexivity.
Qed.

(** X6. A record of a balance-sheet type with NaN among its three coerced
    operands (a field that reads [nan], in any letter case) is judged
    valid. *)
Theorem nan_operand_is_valid (d : dict) (t : string) (log : list request)
    (a l n : float) :
  table_type_of d = inr t ->
  is_balance_sheet t = true ->
  py_float (field_text d "total_assets") = inr a ->
  py_float (field_text d "total_liabilities") = inr l ->
  py_float (field_text d "net_assets") = inr n ->
  is_nan a || is_nan l || is_nan n = true ->
  validate_financial_logic (JDict d) log = (inr None, log, []).
Proof.
  intros Ht Hty Ha Hl Hn Hnan.
  destruct (table_type_of_string d t Ht) as (s & Hget & <-).
  rewrite (validate_balance_sheet d s log Hget Hty), Ha, Hl, Hn.
  unfold audit. cbv zeta. rewrite (nan_difference_not_greater a l n Hnan).
  reflexivity.
Qed.

(* ================================================================== *)
(** * Further properties of the extraction session *)
(* ================================================================== *)

Lemma text_starts_a_character (s : string) :
  is_text s = true ->
  match s with
  | String c _ => is_continuation c = false
  | EmptyString => True
  end.
Proof.
  destruct s as [|c t]; [trivial|]. unfold is_text, is_continuation. cbn [utf8_from].
  destruct (nat_of_ascii c <? 128)%nat eqn:E1.
  - intros _. apply Nat.ltb_lt in E1. apply andb_false_iff. left.
    apply Nat.leb_gt. exact E1.
  - destruct (nat_of_ascii c <? 192)%nat eqn:E2; [discriminate|].
    intros _. apply andb_false_r.
Qed.

Lemma take_chars_app (p s : string) :
  match s with
  | String c _ => is_continuation c = false
  | EmptyString => True
  end ->
  forall n, (n <= py_len p)%nat -> take_chars n (p ++ s) = take_chars n p.
Proof.
  intros Hs. induction p as [|a p IH]; intros n Hlen.
  - cbn [py_len] in Hlen. replace n with 0%nat by lia. cbn [append].
    destruct s as [|c t]; [reflexivity|]. cbn [take_chars]. rewrite Hs. reflexivity.
  - cbn [append take_chars py_len] in *.
    destruct (is_continuation a).
    + f_equal. apply IH. exact Hlen.
    + destruct n as [|n]; [reflexivity|]. f_equal. apply IH. lia.
Qed.

Lemma slice_to_app (n : N) (p s : string) :
  (N.to_nat n <= py_len p)%nat -> is_text s = true ->
  slice_to n (p ++ s) = slice_to n p.
Proof.
  intros Hlen Hs. unfold slice_to.
  apply take_chars_app; [apply text_starts_a_character; exact Hs | exact Hlen].
Qed.

Lemma slice_to_all (n : N) (s : string) :
  (py_len s <= N.to_nat n)%nat -> slice_to n s = s.
Proof.
  unfold slice_to. generalize (N.to_nat n) as m. intros m. revert m.
  induction s as [|c s IH]; intros m Hlen; [reflexivity|].
  cbn [take_chars py_len] in *. destruct (is_continuation c).
  - f_equal. apply IH. exact Hlen.
  - destruct m as [|m]; [lia|]. f_equal. apply IH. lia.
Qed.

Lemma slice_to_length (n : N) (s : string) :
  (py_len (slice_to n s) <= N.to_nat n)%nat.
Proof.
  unfold slice_to. generalize (N.to_nat n) as m. intros m. revert m.
  induction s as [|c s IH]; intros m; [simpl; lia|].
  cbn [take_chars]. destruct (is_continuation c) eqn:E.
  - cbn [py_len]. rewrite E. apply IH.
  - destruct m as [|m]; [simpl; lia|].
    cbn [py_len]. rewrite E. specialize (IH m). lia.
Qed.

Section SessionFootprint.

Variable gateway : list request -> result string.
Variable json_loads : string -> result json.
Variable json_dumps : json -> string.

Local Abbreviation response_record := (response_record gateway json_loads).
Local Abbreviation rejections := (rejections gateway json_loads json_dumps).
Local Abbreviation loop_end := (loop_end gateway json_loads).
Local Abbreviation session :=
  (process_table_agentic_loop gateway json_loads json_dumps).

(** What the loop sends and prints. *)
Lemma attempts_loop_footprint (attempts : list nat) :
  forall (l : locals) (log : list request),
  exists x sent out,
    attempts_loop gateway json_loads json_dumps attempts l log
    = (inr x, (log ++ sent)%list, out)
    /\ (List.length sent <= List.length attempts)%nat
    /\ (attempts <> [] -> 1 <= List.length sent)%nat
    /\ forallb standard_request sent = true
    /\ forallb is_print out = true.
Proof.
  induction attempts as [|a rest IH]; intros l log.
  - exists (inl l), [], []. rewrite app_nil_r.
    split; [reflexivity|]. split; [simpl; lia|]. split; [congruence|]. auto.
  - cbn [attempts_loop]. unfold bind at 1. rewrite attempt_body_run. cbv zeta.
    set (rq := request_for (messages l)).
    assert (Hone : forall x out,
              forallb is_print out = true ->
              exists x' sent out',
                (inr x, (log ++ [rq])%list, (out ++ [])%list)
                = (inr x' : result (locals + json), (log ++ sent)%list, out')
                /\ (List.length sent <= List.length (a :: rest))%nat
                /\ (a :: rest <> [] -> 1 <= List.length sent)%nat
                /\ forallb standard_request sent = true
                /\ forallb is_print out' = true).
    { intros x out Hout. exists x, [rq], out. rewrite app_nil_r.
      split; [reflexivity|]. split; [simpl; lia|]. split; [simpl; lia|]. auto. }
    destruct (response_record (log ++ [rq])) as [e|data].
    { apply Hone. reflexivity. }
    destruct (verdict data) as [e|[reason|]].
    + apply Hone. reflexivity.
    + destruct (IH (Locals (messages l ++ [assistant_turn json_dumps data; audit_turn reason])
                           (Some data)) (log ++ [rq])%list)
        as (x & sent & out & -> & Hlen & _ & Hstd & Hout).
      exists x, (rq :: sent), ([attempt_line a; Print ("      ! Validation Failed: " ++ reason)] ++ out)%list.
      rewrite <- app_assoc.
      split; [reflexivity|]. split; [simpl; lia|]. split; [simpl; lia|]. auto.
    + destruct (stamp data a) as [e|v]; apply Hone; reflexivity.
Qed.

(** What a session sends and prints, and the one exception it raises. *)
Lemma session_footprint (table_html filename : string) (log : list request) :
  exists r sent out,
    session table_html filename log = (r, (log ++ sent)%list, out)
    /\ (1 <= List.length sent <= MAX_RETRIES)%nat
    /\ forallb standard_request sent = true
    /\ forallb is_print out = true
    /\ (forall e, r = inl e -> e = unbound_local "extracted_data").
Proof.
  destruct (attempts_loop_footprint (seq 0 MAX_RETRIES)
              (Locals (seed table_html filename) None) log)
    as (x & sent & out & Hrun & Hlen & Hpos & Hstd & Hout).
  rewrite length_seq in Hlen.
  assert (Hpos' : (1 <= List.length sent)%nat) by (apply Hpos; discriminate).
  unfold process_table_agentic_loop. cbv zeta. fold (seed table_html filename).
  unfold bind at 1. rewrite Hrun.
  destruct x as [l|v].
  - unfold bind at 1. unfold print at 1.
    destruct (extracted_data l); eexists; exists sent; eexists;
      (split; [reflexivity|]); (split; [lia|]); (split; [exact Hstd|]);
      (split; [rewrite forallb_app, Hout; reflexivity|]);
      intros e He; congruence.
  - exists (inr v), sent, (out ++ [])%list.
    split; [reflexivity|]. split; [lia|]. split; [exact Hstd|].
    split; [rewrite app_nil_r; exact Hout|]. intros e He; discriminate.
Qed.

(** X7. The record an accepted session returns passes the validator itself:
    the two stamped fields are not among those the validator reads. *)
Theorem accepted_record_is_valid
    (table_html filename : string) (log : list request) v log' out :
  session table_html filename log = (inr v, log', out) ->
  field "validation_status" v = Some (JStr "passed") ->
  forall log0, validate_financial_logic v log0 = (inr None, log0, []).
Proof.
  intros Hres Hpassed log0.
  destruct (accepted_session _ _ _ _ _ _ _ _ _ Hres Hpassed)
    as (attempt & payload & _ & _ & Hv & Hst).
  rewrite stamp_dict in Hst. injection Hst as <-.
  rewrite validate_after_other_key by (simpl; intuition discriminate).
  rewrite validate_after_other_key by (simpl; intuition discriminate).
  rewrite validate_run, Hv. reflexivity.
Qed.

(** X8. The outcomes of a session.  A session sends between one and three
    requests, each with the fixed model, response format and temperature,
    prints, and writes no file.  It returns a record stamped as passed,
    whose payload the validator accepted; or a failure record, whose
    [last_attempt] is a decoded record that the validator did not accept;
    or it raises [UnboundLocalError], which happens exactly when its
    first call to the model or the decoding of its first response
    fails, after that one request.  It raises nothing else. *)
Theorem session_outcomes (table_html filename : string) (log : list request) :
  exists r sent out,
    session table_html filename log = (r, (log ++ sent)%list, out)
    /\ (1 <= List.length sent <= MAX_RETRIES)%nat
    /\ forallb standard_request sent = true
    /\ forallb is_print out = true
    /\ match r with
       | inr v =>
           (field "validation_status" v = Some (JStr "passed")
            /\ exists payload,
                 response_record (log ++ sent) = inr (JDict payload)
                 /\ verdict (JDict payload) = inr None)
           \/ (exists data, v = failure_record data /\ verdict data <> inr None)
       | inl e =>
           e = unbound_local "extracted_data"
           /\ sent = [request_for (seed table_html filename)]
           /\ exists fault, response_record (log ++ sent) = inl fault
       end.
Proof.
  destruct (session_footprint table_html filename log)
    as (r & sent & out & Hfp & Hlen & Hstd & Hout & _).
  exists r, sent, out.
  destruct (process_table_shape gateway json_loads json_dumps table_html filename log)
    as (k & log_k & l_k & x & log' & out' & Hk & Hrej & Hend & Hrun).
  rewrite Hfp in Hrun.
  destruct (rejections_log _ _ _ _ _ _ _ _ Hrej) as (sent_k & -> & Hsent_k).
  split; [exact Hfp|].
  assert (Hlast : forall data reason,
            verdict data = inr (Some reason) -> verdict data <> inr None)
    by (intros data reason H; rewrite H; discriminate).
  assert (Hone : forall tail : list request,
            List.length (sent_k ++ tail) = (k + List.length tail)%nat)
    by (intros tail; rewrite length_app; lia).
  destruct Hend as [Hn | attempt data v Hnth Hrec Hv Hst | e Hlt Hrec | data e Hlt Hrec Hv].
  - (* exhaustion *)
    rewrite length_seq in Hn. subst k.
    destruct (rejections_last _ _ _ _ _ _ _ _ Hrej) as (data & reason & Hed & Hrec & Hv).
    rewrite Hed in Hrun. injection Hrun as -> Hlog _.
    apply app_inv_head in Hlog. subst sent.
    split; [unfold MAX_RETRIES in *; lia|].
    split; [exact Hstd|]. split; [exact Hout|].
    right. exists data. split; [reflexivity | eauto].
  - (* accepted *)
    injection Hrun as -> Hlog _.
    rewrite <- app_assoc in Hlog. apply app_inv_head in Hlog. subst sent.
    rewrite <- app_assoc in Hrec.
    destruct (verdict_dict _ _ Hv) as [d ->].
    destruct (field_stamp _ _ _ Hst) as [Hpassed _].
    destruct (nth_error_attempts _ _ Hnth) as [_ Hlt].
    split; [rewrite Hone; simpl; lia|].
    split; [exact Hstd|]. split; [exact Hout|].
    left. split; [exact Hpassed|]. exists d. auto.
  - (* fault of the call or of the decoding *)
    rewrite <- app_assoc in Hrec. rewrite length_seq in Hlt.
    destruct k as [|k].
    + inversion Hrej as [? ? Hlog0 | ]; subst. cbn [extracted_data] in Hrun.
      injection Hrun as -> Hlog _.
      rewrite <- app_assoc in Hlog. apply app_inv_head in Hlog.
      destruct sent_k; [|discriminate]. cbn [app] in *. subst sent.
      split; [simpl; unfold MAX_RETRIES; lia|].
      split; [exact Hstd|]. split; [exact Hout|].
      split; [reflexivity|]. split; [reflexivity|].
      exists e. rewrite ?app_nil_r. exact Hrec.
    + destruct (rejections_last _ _ _ _ _ _ _ _ Hrej) as (data & reason & Hed & _ & Hv).
      rewrite Hed in Hrun. injection Hrun as -> Hlog _.
      rewrite <- app_assoc in Hlog. apply app_inv_head in Hlog. subst sent.
      split; [rewrite Hone; simpl; lia|].
      split; [exact Hstd|]. split; [exact Hout|].
      right. exists data. split; [reflexivity | eauto].
  - (* fault of the validator *)
    rewrite length_seq in Hlt. cbn [extracted_data] in Hrun. injection Hrun as -> Hlog _.
    rewrite <- app_assoc in Hlog. apply app_inv_head in Hlog. subst sent.
    split; [rewrite Hone; simpl; lia|].
    split; [exact Hstd|]. split; [exact Hout|].
    right. exists data. split; [reflexivity|]. rewrite Hv. discriminate.
Qed.

(** X9. When the validator raises on the record of a response, the session
    ends with that request and returns the failure record with that
    record, whatever attempts remain. *)
Theorem validator_fault_ends_session
    (table_html filename : string) (log log_k : list request)
    (k : nat) (l_k : locals) (data : json) (e : exn) :
  rejections log (Locals (seed table_html filename) None) k log_k l_k ->
  (k < MAX_RETRIES)%nat ->
  response_record (log_k ++ [request_for (messages l_k)]) = inr data ->
  verdict data = inl e ->
  exists out,
    session table_html filename log
    = (inr (failure_record data),
       (log_k ++ [request_for (messages l_k)])%list, out)
    /\ In (api_error_line e) out.
Proof.
  intros Hrej Hlt Hrec Hv.
  destruct (attempts_loop_after_rejections _ _ _ _ _ _ _ _ Hrej
              (seq 0 k) (seq k (MAX_RETRIES - k)) (length_seq _ _)) as (out_pre & Hloop).
  rewrite <- seq_app in Hloop.
  replace (k + (MAX_RETRIES - k))%nat with MAX_RETRIES in Hloop by lia.
  destruct (MAX_RETRIES - k)%nat as [|n] eqn:E; [lia|].
  cbn [seq attempts_loop] in Hloop. unfold bind at 1 in Hloop.
  rewrite attempt_body_run in Hloop. cbv zeta in Hloop. rewrite Hrec, Hv in Hloop.
  unfold ret in Hloop.
  unfold process_table_agentic_loop. cbv zeta. fold (seed table_html filename).
  unfold bind at 1. rewrite Hloop.
  unfold bind at 1. unfold print at 1. cbn [extracted_data].
  eexists. split; [reflexivity|].
  apply in_or_app. left. apply in_or_app. right. apply in_or_app. left.
  right. left. reflexivity.
Qed.

(** X10. Only the first 15000 characters of a table reach the model,
    characters of any script counted alike: two tables that share them
    get the same session, result, requests and printed lines alike; a
    table of at most 15000 characters is in the first prompt whole. *)
Theorem table_is_cut_at_15000 (head rest filename : string) (log : list request) :
  (15000 <= N.of_nat (py_len head))%N ->
  is_text rest = true ->
  (forall rest',
     is_text rest' = true ->
     session (head ++ rest') filename log = session (head ++ rest) filename log)
  /\ (forall table_html,
        (N.of_nat (py_len table_html) <= 15000)%N ->
        str_in table_html (base_prompt table_html filename) = true).
Proof.
  intros Hlen Hrest. split.
  - intros rest' Hrest'.
    assert (Hprompt : base_prompt (head ++ rest') filename
                      = base_prompt (head ++ rest) filename).
    { unfold base_prompt.
      rewrite !(slice_to_app 15000 head) by (assumption || lia). reflexivity. }
    unfold process_table_agentic_loop. rewrite Hprompt. reflexivity.
  - intros table_html Hshort. unfold base_prompt.
    rewrite slice_to_all by lia.
    repeat first [ apply str_in_here | apply str_in_later ].
Qed.

End SessionFootprint.

(* ================================================================== *)
(** * Further properties of the batch driver *)
(* ================================================================== *)

Lemma forallb_app_true {A} (f : A -> bool) (l1 l2 : list A) :
  forallb f l1 = true -> forallb f l2 = true -> forallb f (l1 ++ l2) = true.
Proof. intros H1 H2. rewrite forallb_app, H1, H2. reflexivity. Qed.

Section BatchFootprint.

Variable gateway : list request -> result string.
Variable json_loads : string -> result json.
Variable json_dumps : json -> string.
Variable find_all_tables : string -> result (list tag).
Variable path_exists : string -> bool.
Variable path_isdir : string -> bool.
Variable glob_txt : string -> list string.
Variable basename : string -> string.
Variable read_text : string -> result string.

Local Abbreviation session :=
  (process_table_agentic_loop gateway json_loads json_dumps).
Local Abbreviation run_tables := (tables_loop gateway json_loads json_dumps).
Local Abbreviation run_file :=
  (process_file gateway json_loads json_dumps find_all_tables basename read_text).
Local Abbreviation run_files :=
  (files_loop gateway json_loads json_dumps find_all_tables basename read_text).
Local Abbreviation significant := (extract_tables_from_html find_all_tables).

Local Abbreviation file_tables := (file_tables find_all_tables read_text).
Local Abbreviation tables_in := (tables_in find_all_tables read_text).

(** The loop over the tables of a file: one entry per table when every
    session returns, at most three requests per table. *)
Lemma tables_loop_footprint (filename : string) (tables : list string) :
  forall (i : nat) (extracted_tables : list json) (log : list request),
  exists r sent out,
    run_tables filename i tables extracted_tables log = (r, (log ++ sent)%list, out)
    /\ (List.length sent <= MAX_RETRIES * List.length tables)%nat
    /\ forallb standard_request sent = true
    /\ forallb is_print out = true
    /\ match r with
       | inr all =>
           exists entries,
             all = (extracted_tables ++ entries)%list
             /\ List.length entries = List.length tables
             /\ (List.length tables <= List.length sent)%nat
       | inl e => e = unbound_local "extracted_data" /\ (1 <= List.length sent)%nat
       end.
Proof.
  induction tables as [|table rest IH]; intros i extracted_tables log.
  - exists (inr extracted_tables), [], []. rewrite app_nil_r.
    split; [reflexivity|]. split; [simpl; lia|]. split; [reflexivity|].
    split; [reflexivity|]. exists []. rewrite app_nil_r. auto.
  - cbn [tables_loop]. unfold bind at 1. unfold print at 1. unfold bind at 1.
    destruct (session_footprint gateway json_loads json_dumps table filename log)
      as (r & sent & out & -> & Hlen & Hstd & Hout & Hexn).
    destruct r as [e|extracted_json].
    + exists (inl e), sent. eexists. split; [reflexivity|].
      split; [cbn [List.length]; unfold MAX_RETRIES in *; lia|].
      split; [exact Hstd|]. split; [exact Hout|].
      split; [apply Hexn; reflexivity | lia].
    + destruct (IH (S i) (extracted_tables ++ [extracted_json])%list (log ++ sent)%list)
        as (r' & sent' & out' & -> & Hlen' & Hstd' & Hout' & Hr').
      exists r', (sent ++ sent')%list. eexists.
      split; [rewrite <- app_assoc; reflexivity|].
      split; [rewrite length_app; cbn [List.length]; unfold MAX_RETRIES in *; lia|].
      split; [apply forallb_app_true; assumption|].
      split; [cbn [app forallb is_print]; apply forallb_app_true; assumption|].
      destruct r' as [e|all];
        [split; [apply Hr' | rewrite length_app; lia]|].
      destruct Hr' as (entries & -> & Hentries & Hsent).
      exists (extracted_json :: entries). rewrite <- app_assoc.
      split; [reflexivity|]. split; [simpl; lia|].
      rewrite length_app. simpl. lia.
Qed.

(** The processing of a file, by the tables found in it. *)
Lemma process_file_run (file_path : string) (log : list request) :
  run_file file_path log =
  match file_tables file_path with
  | inl e => (inl e, log, [])
  | inr tables =>
      let '(r, log1, out1) := run_tables (basename file_path) 0 tables [] log in
      (match r with
       | inl e => inl e
       | inr entries => inr (file_record (basename file_path) entries)
       end, log1,
       (Print ("  - Found " ++ str_of_nat (List.length tables) ++ " tables.") :: out1)%list)
  end.
Proof.
  unfold process_file, file_tables.
  unfold bind at 1. unfold lift at 1.
  destruct (read_text file_path) as [e|content]; [reflexivity|].
  unfold bind at 1. unfold lift at 1.
  destruct (significant content) as [e|tables]; [reflexivity|].
  unfold bind at 1. unfold print at 1. unfold bind at 1.
  destruct (run_tables (basename file_path) 0 tables [] log) as [[[e|entries] log1] out1];
    [reflexivity|].
  unfold ret, file_record. cbn [app]. rewrite app_nil_r. reflexivity.
Qed.

(** What the processing of a file sends and prints. *)
Lemma process_file_footprint (file_path : string) (log : list request) :
  exists r sent out,
    run_file file_path log = (r, (log ++ sent)%list, out)
    /\ (List.length sent <= MAX_RETRIES * tables_in file_path)%nat
    /\ forallb standard_request sent = true
    /\ forallb is_print out = true.
Proof.
  rewrite process_file_run. unfold tables_in.
  destruct (file_tables file_path) as [e|tables].
  - exists (inl e), [], []. rewrite app_nil_r. repeat split. simpl; lia.
  - destruct (tables_loop_footprint (basename file_path) tables 0 [] log)
      as (r & sent & out & -> & Hlen & Hstd & Hout & _).
    eexists. exists sent. eexists.
    split; [reflexivity|]. split; [exact Hlen|]. split; [exact Hstd|].
    cbn [forallb is_print]. exact Hout.
Qed.

(** What the loop over the files sends and prints, and what it adds to
    [all_data]. *)
Lemma files_loop_footprint (files : list string) :
  forall (all_data : list json) (log : list request),
  exists all sent out,
    run_files files all_data log = (inr all, (log ++ sent)%list, out)
    /\ (List.length sent <= MAX_RETRIES * list_sum (map tables_in files))%nat
    /\ forallb standard_request sent = true
    /\ forallb is_print out = true
    /\ exists records,
         all = (all_data ++ records)%list
         /\ (List.length records <= List.length files)%nat.
Proof.
  induction files as [|f rest IH]; intros all_data log.
  - exists all_data, [], []. rewrite app_nil_r.
    split; [reflexivity|]. split; [simpl; lia|]. split; [reflexivity|].
    split; [reflexivity|]. exists []. rewrite app_nil_r. auto.
  - cbn [files_loop]. unfold bind at 1. unfold print at 1.
    unfold bind at 1. unfold catch at 1.
    destruct (process_file_footprint f log) as (r & sent & out & -> & Hlen & Hstd & Hout).
    destruct r as [e|record].
    + unfold bind at 1. unfold print at 1.
      destruct (IH all_data (log ++ sent)%list)
        as (all & sent' & out' & -> & Hlen' & Hstd' & Hout' & records & -> & Hrec).
      exists (all_data ++ records)%list, (sent ++ sent')%list. eexists.
      split; [rewrite <- app_assoc; reflexivity|].
      split; [rewrite length_app; unfold MAX_RETRIES, list_sum in *; cbn [map fold_right]; lia|].
      split; [apply forallb_app_true; assumption|].
      split; [cbn [app forallb is_print]; apply forallb_app_true; assumption|].
      exists records. split; [reflexivity | simpl; lia].
    + destruct (IH (all_data ++ [record])%list (log ++ sent)%list)
        as (all & sent' & out' & -> & Hlen' & Hstd' & Hout' & records & -> & Hrec).
      exists ((all_data ++ [record]) ++ records)%list, (sent ++ sent')%list. eexists.
      split; [rewrite <- (app_assoc log sent sent'); reflexivity|].
      split; [rewrite length_app; unfold MAX_RETRIES, list_sum in *; cbn [map fold_right]; lia|].
      split; [apply forallb_app_true; assumption|].
      split; [cbn [app forallb is_print]; apply forallb_app_true; assumption|].
      exists (record :: records). rewrite <- app_assoc.
      split; [reflexivity | simpl; lia].
Qed.

Lemma no_significant_tables (tags : list tag) :
  (forall t, In t tags -> (text_len t <= 100)%nat) ->
  filter (fun table => (100 <? text_len table)%nat) tags = [].
Proof.
  induction tags as [|t ts IH]; intros Hsmall; [reflexivity|].
  cbn [filter].
  replace (100 <? text_len t)%nat with false
    by (symmetry; apply Nat.ltb_ge, Hsmall; left; reflexivity).
  apply IH. intros t' Hin. apply Hsmall. right. exact Hin.
Qed.

(** X11. The outcomes of the processing of a file.  A file that cannot
    be read raises the error of the read, and a file whose markup the
    parser rejects raises the error of the parser, both before any
    request or printed line.  A file that was read and parsed gives a
    record with its base name and one entry per table of more than 100
    characters of text, for at least one and at most three requests per
    entry; or raises the [UnboundLocalError] of a session, after at least
    one request, and then has no record at all.  Nothing else is raised,
    and no file is written. *)
Theorem file_outcomes (file_path : string) (log : list request) :
  exists r sent out,
    run_file file_path log = (r, (log ++ sent)%list, out)
    /\ forallb standard_request sent = true
    /\ forallb is_print out = true
    /\ match read_text file_path with
       | inl fault => r = inl fault /\ sent = [] /\ out = []
       | inr content =>
           match find_all_tables content with
           | inl fault => r = inl fault /\ sent = [] /\ out = []
           | inr tags =>
               let n := List.length (filter (fun t => (100 <? text_len t)%nat) tags) in
               match r with
               | inr record =>
                   exists entries,
                     record = file_record (basename file_path) entries
                     /\ List.length entries = n
                     /\ (n <= List.length sent <= MAX_RETRIES * n)%nat
               | inl e =>
                   e = unbound_local "extracted_data"
                   /\ (1 <= List.length sent <= MAX_RETRIES * n)%nat
               end
           end
       end.
Proof.
  rewrite process_file_run. unfold file_tables, extract_tables_from_html.
  destruct (read_text file_path) as [fault|content];
    [exists (inl fault), [], []; rewrite app_nil_r; repeat split|].
  destruct (find_all_tables content) as [fault|tags];
    [exists (inl fault), [], []; rewrite app_nil_r; repeat split|].
  cbv zeta. rewrite length_map.
  destruct (tables_loop_footprint (basename file_path)
              (map markup (filter (fun t => (100 <? text_len t)%nat) tags)) 0 [] log)
    as (r & sent & out & -> & Hlen & Hstd & Hout & Hr).
  rewrite length_map in *.
  destruct r as [e|all].
  - exists (inl e), sent. eexists. split; [reflexivity|].
    split; [exact Hstd|]. split; [exact Hout|].
    destruct Hr as [-> Hone]. split; [reflexivity | lia].
  - destruct Hr as (entries & -> & Hentries & Hsent). cbn [app] in *.
    eexists. exists sent. eexists. split; [reflexivity|].
    split; [exact Hstd|]. split; [exact Hout|].
    exists entries. split; [reflexivity|]. split; [exact Hentries | lia].
Qed.

(** X12. A file whose tables all have at most 100 characters of text gets
    a record without entries, and nothing of it is sent to the model. *)
Theorem file_of_small_tables (file_path content : string) (tags : list tag)
    (log : list request) :
  read_text file_path = inr content ->
  find_all_tables content = inr tags ->
  (forall t, In t tags -> (text_len t <= 100)%nat) ->
  run_file file_path log
  = (inr (file_record (basename file_path) []), log, [Print "  - Found 0 tables."]).
Proof.
  intros Hread Hparse Hsmall.
  rewrite process_file_run. unfold file_tables, extract_tables_from_html.
  rewrite Hread, Hparse, (no_significant_tables tags Hsmall). reflexivity.
Qed.

(** X13. The outcomes of [main].  It never raises.  For a path that does not
    exist it prints one line, sends nothing and writes nothing.  For one
    that exists it writes exactly one file, after everything else but the
    closing line: the list of the records gathered, at most one per file
    of the batch; and it sends at most three requests per table of more
    than 100 characters of the files that can be read, each with the fixed
    model, response format and temperature. *)
Theorem main_outcomes (input_path : string) (log : list request) :
  let files := batch_files path_isdir glob_txt input_path in
  let output := output_filename path_isdir basename input_path in
  if path_exists input_path then
    exists all_data sent prints,
      main gateway json_loads json_dumps find_all_tables path_exists path_isdir
           glob_txt basename read_text input_path log
      = (inr tt, (log ++ sent)%list,
         (prints ++ [ WriteFile output (JList all_data);
                      Print ("Done. Saved to " ++ output) ])%list)
      /\ forallb is_print prints = true
      /\ (List.length all_data <= List.length files)%nat
      /\ (List.length sent <= MAX_RETRIES * list_sum (map tables_in files))%nat
      /\ forallb standard_request sent = true
  else
    main gateway json_loads json_dumps find_all_tables path_exists path_isdir
         glob_txt basename read_text input_path log
    = (inr tt, log, [Print "Input path not found."]).
Proof.
  cbv zeta. unfold main. cbv zeta.
  destruct (path_exists input_path); cbn [negb]; [|reflexivity].
  destruct (files_loop_footprint (batch_files path_isdir glob_txt input_path) [] log)
    as (all & sent & out & Hrun & Hlen & Hstd & Hout & records & -> & Hrec).
  exists records, sent, out. cbn [app] in Hrun.
  split; [|auto].
  unfold batch_files, output_filename in *.
  destruct (path_isdir input_path);
    unfold bind at 1; rewrite Hrun;
    unfold bind, write_file, print; cbn [app]; reflexivity.
Qed.

End BatchFootprint.

Section ScriptFootprint.

Variable gateway : list request -> result string.
Variable json_loads : string -> result json.
Variable json_dumps : json -> string.
Variable find_all_tables : string -> result (list tag).
Variable path_exists : string -> bool.
Variable path_isdir : string -> bool.
Variable glob_txt : string -> list string.
Variable basename : string -> string.
Variable read_text : string -> result string.

Local Abbreviation run_main :=
  (main gateway json_loads json_dumps find_all_tables path_exists path_isdir
        glob_txt basename read_text).
Local Abbreviation script :=
  (run_as_script gateway json_loads json_dumps find_all_tables path_exists path_isdir
                 glob_txt basename read_text).

Lemma main_returns (input_path : string) (log : list request) :
  exists log' out, run_main input_path log = (inr tt, log', out).
Proof.
  unfold main. cbv zeta.
  destruct (path_exists input_path); cbn [negb]; [|eexists; eexists; reflexivity].
  destruct (path_isdir input_path); unfold bind at 1;
    match goal with
    | |- context [files_loop _ _ _ _ _ _ ?fs [] log] =>
        destruct (files_loop_returns gateway json_loads json_dumps find_all_tables
                    basename read_text fs [] log) as (acc & log' & out & ->)
    end;
    unfold bind, write_file, print; eexists; eexists; reflexivity.
Qed.

(** X14. The exit status of the script.  It is 1 exactly when no argument
    follows the name of the script, and then the usage line is all that
    happens.  Otherwise the script is [main] on the first argument, and
    the arguments after it are not read; its status is 0 also when
    the input path does not exist, where nothing is sent or written. *)
Theorem script_exit_status (argv : list string) (log : list request) :
  exists status log' out,
    script argv log = (inr status, log', out)
    /\ ((status = 1%Z /\ (List.length argv < 2)%nat /\ log' = log
         /\ out = [Print "Usage: python3 extract_tables.py <file_or_folder>"])
        \/ (status = 0%Z
            /\ exists input_path,
                 nth_error argv 1 = Some input_path
                 /\ run_main input_path log = (inr tt, log', out)
                 /\ (path_exists input_path = false ->
                     log' = log /\ out = [Print "Input path not found."]))).
Proof.
  destruct argv as [|name [|input_path rest]];
    try (exists 1%Z, log; eexists; split; [reflexivity|];
         left; repeat split; simpl; lia).
  cbn [run_as_script].
  destruct (main_returns input_path log) as (log' & out & Hmain).
  exists 0%Z, log', out. unfold bind at 1. rewrite Hmain.
  split; [unfold ret; rewrite app_nil_r; reflexivity|].
  right. split; [reflexivity|]. exists input_path.
  split; [reflexivity|]. split; [exact Hmain|].
  intros Hmissing. unfold main in Hmain. rewrite Hmissing in Hmain.
  cbn [negb] in Hmain. unfold print in Hmain. injection Hmain as <- <-. auto.
Qed.

End ScriptFootprint.

(* ================================================================== *)
(** * Properties of the first version *)
(* ================================================================== *)

Lemma slice_to_prefix (n : N) (s : string) : exists rest, s = slice_to n s ++ rest.
Proof.
  unfold slice_to. generalize (N.to_nat n) as m. intros m. revert m.
  induction s as [|c s IH]; intros m; [exists EmptyString; reflexivity|].
  cbn [take_chars]. destruct (is_continuation c).
  - destruct (IH m) as [rest Hrest]. exists rest.
    cbn [append]. f_equal. exact Hrest.
  - destruct m as [|m]; [exists (String c s); reflexivity|].
    destruct (IH m) as [rest Hrest]. exists rest.
    cbn [append]. f_equal. exact Hrest.
Qed.

Section FirstVersion.

Variable gateway : list request -> result string.
Variable json_loads : string -> result json.
Variable find_all_tables : string -> result (list tag).
Variable path_exists : string -> bool.
Variable path_isdir : string -> bool.
Variable glob_txt : string -> list string.
Variable basename : string -> string.
Variable read_text : string -> result string.

Local Abbreviation response_record := (response_record gateway json_loads).
Local Abbreviation extract_table := (V1.process_table_with_llm gateway json_loads).
Local Abbreviation run_tables := (V1.tables_loop gateway json_loads).
Local Abbreviation run_file :=
  (V1.process_file gateway json_loads find_all_tables basename read_text).
Local Abbreviation run_files :=
  (V1.files_loop gateway json_loads find_all_tables basename read_text).
Local Abbreviation run_main :=
  (V1.main gateway json_loads find_all_tables path_exists path_isdir glob_txt
           basename read_text).
Local Abbreviation script :=
  (V1.run_as_script gateway json_loads find_all_tables path_exists path_isdir glob_txt
                    basename read_text).
Local Abbreviation significant := (extract_tables_from_html find_all_tables).
Local Abbreviation file_tables := (file_tables find_all_tables read_text).
Local Abbreviation tables_in := (tables_in find_all_tables read_text).
Local Abbreviation usable := (usable find_all_tables read_text).
Local Abbreviation recorded := (recorded basename find_all_tables read_text).

(** One call of [process_table_with_llm], by the response. *)
Lemma process_table_run (table_html filename : string) (log : list request) :
  extract_table table_html filename log =
  let log' := (log ++ [first_request table_html filename])%list in
  match response_record log' with
  | inr data => (inr data, log', [])
  | inl e =>
      (inr (error_record e (slice_to 100 table_html)), log',
       [Print ("Error processing table chunk: " ++ exn_msg e)])
  end.
Proof.
  unfold V1.process_table_with_llm, first_request, request_for, response_record.
  unfold bind at 1. unfold catch at 1. unfold bind at 1.
  unfold chat_completions_create at 1. cbv zeta.
  destruct (gateway _) as [e|text]; [reflexivity|].
  unfold lift at 1. destruct (json_loads text) as [e|data]; reflexivity.
Qed.

(** X15. The outcomes of [process_table_with_llm].  It never raises and sends
    exactly one request, with the fixed model, response format and
    temperature.  It returns the record decoded from the response as it
    is, and prints nothing; or, when the call or the decoding fails, it
    prints the fault and returns an error record with the message of the
    fault and the first 100 characters of the table, characters of any
    script counted alike, or the whole table when it is shorter. *)
Theorem first_version_table (table_html filename : string) (log : list request) :
  exists v out,
    extract_table table_html filename log
    = (inr v, (log ++ [first_request table_html filename])%list, out)
    /\ standard_request (first_request table_html filename) = true
    /\ match response_record (log ++ [first_request table_html filename]) with
       | inr data => v = data /\ out = []
       | inl e =>
           out = [Print ("Error processing table chunk: " ++ exn_msg e)]
           /\ exists snippet rest,
                v = error_record e snippet
                /\ table_html = snippet ++ rest
                /\ (py_len snippet <= 100)%nat
                /\ (py_len table_html <= 100 -> snippet = table_html)%nat
       end.
Proof.
  rewrite process_table_run. cbv zeta.
  destruct (response_record (log ++ [first_request table_html filename])) as [e|data].
  - eexists. eexists. split; [reflexivity|]. split; [reflexivity|].
    split; [reflexivity|].
    destruct (slice_to_prefix 100 table_html) as [rest Hrest].
    exists (slice_to 100 table_html), rest.
    split; [reflexivity|]. split; [exact Hrest|].
    split; [apply (slice_to_length 100)|].
    intros Hshort. apply slice_to_all. exact Hshort.
  - exists data, []. auto.
Qed.

Lemma process_table_footprint (table_html filename : string) (log : list request) :
  exists v out,
    extract_table table_html filename log
    = (inr v, (log ++ [first_request table_html filename])%list, out)
    /\ forallb is_print out = true.
Proof.
  rewrite process_table_run. cbv zeta.
  destruct (response_record _); eexists; eexists; split; reflexivity.
Qed.

(** The loop over the tables of a file: one entry and one request per
    table. *)
Lemma first_tables_loop_footprint (filename : string) (total : nat) (tables : list string) :
  forall (i : nat) (extracted_tables : list json) (log : list request),
  exists entries sent out,
    run_tables filename total i tables extracted_tables log
    = (inr (extracted_tables ++ entries)%list, (log ++ sent)%list, out)
    /\ List.length entries = List.length tables
    /\ List.length sent = List.length tables
    /\ forallb standard_request sent = true
    /\ forallb is_print out = true.
Proof.
  induction tables as [|table rest IH]; intros i extracted_tables log.
  - exists [], [], []. rewrite !app_nil_r. repeat split.
  - cbn [V1.tables_loop]. unfold bind at 1. unfold print at 1. unfold bind at 1.
    destruct (process_table_footprint table filename log) as (v & out & -> & Hout).
    destruct (IH (S i) (extracted_tables ++ [v])%list
                 (log ++ [first_request table filename])%list)
      as (entries & sent & out' & -> & Hentries & Hsent & Hstd & Hout').
    exists (v :: entries), (first_request table filename :: sent). eexists.
    split; [rewrite <- !app_assoc; reflexivity|].
    split; [simpl; lia|]. split; [simpl; lia|].
    split; [cbn [forallb]; rewrite Hstd; reflexivity|].
    cbn [app forallb is_print]. apply forallb_app_true; assumption.
Qed.

(** The processing of a file: the error of the read or of the parser,
    or its record. *)
Lemma first_process_file_footprint (file_path : string) (log : list request) :
  exists sent out,
    match file_tables file_path with
    | inl fault => run_file file_path log = (inl fault, (log ++ sent)%list, out)
    | inr _ =>
        exists record,
          run_file file_path log = (inr record, (log ++ sent)%list, out)
          /\ recorded file_path record
    end
    /\ (List.length sent = tables_in file_path)%nat
    /\ forallb standard_request sent = true
    /\ forallb is_print out = true.
Proof.
  assert (Hrun : run_file file_path log =
                 match file_tables file_path with
                 | inl e => (inl e, log, [])
                 | inr tables =>
                     let '(r, log1, out1) :=
                       run_tables (basename file_path) (List.length tables) 0 tables [] log in
                     (match r with
                      | inl e => inl e
                      | inr entries => inr (file_record (basename file_path) entries)
                      end, log1,
                      (Print ("  - Found " ++ str_of_nat (List.length tables)
                              ++ " significant tables.") :: out1)%list)
                 end).
  { unfold V1.process_file, file_tables.
    unfold bind at 1. unfold lift at 1.
    destruct (read_text file_path) as [e|content]; [reflexivity|].
    unfold bind at 1. unfold lift at 1.
    destruct (significant content) as [e|tables]; [reflexivity|].
    unfold bind at 1. unfold print at 1. unfold bind at 1.
    destruct (run_tables _ _ _ _ _ _) as [[[e|entries] log1] out1]; [reflexivity|].
    unfold ret, file_record. cbn [app]. rewrite app_nil_r. reflexivity. }
  unfold recorded, tables_in. rewrite Hrun.
  destruct (file_tables file_path) as [fault|tables].
  - exists [], []. rewrite app_nil_r. repeat split.
  - destruct (first_tables_loop_footprint (basename file_path)
                (List.length tables) tables 0 [] log)
      as (entries & sent & out & -> & Hentries & Hsent & Hstd & Hout).
    exists sent. eexists.
    split; [eexists; split; [reflexivity | exists entries; auto]|].
    split; [exact Hsent|]. split; [exact Hstd|].
    cbn [forallb is_print]. exact Hout.
Qed.

(** The loop over the files: one record per file that is read and
    parsed, one request per table sent. *)
Lemma first_files_loop_footprint (files : list string) :
  forall (all_data : list json) (log : list request),
  exists records sent out,
    run_files files all_data log
    = (inr (all_data ++ records)%list, (log ++ sent)%list, out)
    /\ Forall2 recorded (filter usable files) records
    /\ List.length sent = list_sum (map tables_in files)
    /\ forallb standard_request sent = true
    /\ forallb is_print out = true.
Proof.
  induction files as [|f rest IH]; intros all_data log.
  - exists [], [], []. rewrite !app_nil_r. repeat split. constructor.
  - cbn [V1.files_loop filter]. unfold bind at 1. unfold print at 1.
    unfold bind at 1. unfold catch at 1.
    destruct (first_process_file_footprint f log) as (sent & out & Hrun & Hsent & Hstd & Hout).
    unfold usable.
    assert (Hsum : list_sum (map tables_in (f :: rest))
                   = (tables_in f + list_sum (map tables_in rest))%nat) by reflexivity.
    destruct (file_tables f) as [fault|tables] eqn:Hfile.
    + rewrite Hrun. unfold bind at 1. unfold print at 1.
      destruct (IH all_data (log ++ sent)%list)
        as (records & sent' & out' & -> & Hrec & Hsent' & Hstd' & Hout').
      exists records, (sent ++ sent')%list. eexists.
      split; [rewrite <- (app_assoc log sent sent'); reflexivity|].
      split; [exact Hrec|].
      split; [rewrite Hsum, length_app, Hsent, Hsent'; reflexivity|].
      split; [apply forallb_app_true; assumption|].
      cbn [app forallb is_print]. apply forallb_app_true; assumption.
    + destruct Hrun as (record & -> & Hrecord).
      destruct (IH (all_data ++ [record])%list (log ++ sent)%list)
        as (records & sent' & out' & -> & Hrec & Hsent' & Hstd' & Hout').
      exists (record :: records), (sent ++ sent')%list. eexists.
      split; [rewrite <- (app_assoc log sent sent'), <- (app_assoc all_data); reflexivity|].
      split; [constructor; assumption|].
      split; [rewrite Hsum, length_app, Hsent, Hsent'; reflexivity|].
      split; [apply forallb_app_true; assumption|].
      cbn [app forallb is_print]. apply forallb_app_true; assumption.
Qed.

(** X16. The outcomes of [main] in the first version.  It never raises.  For
    a path that does not exist it prints one line, sends nothing and
    writes nothing.  For one that exists it writes exactly one file, after
    everything else but the closing line: one record for each file of the
    batch that is read and parsed without an exception, in order, under
    its base name and with one entry per table of more than 100
    characters of text, and no record for the other files; and it sends
    exactly one request per such table, each with the fixed model,
    response format and temperature. *)
Theorem first_version_batch (input_path : string) (log : list request) :
  let files := batch_files path_isdir glob_txt input_path in
  let output := output_filename path_isdir basename input_path in
  if path_exists input_path then
    exists records sent prints,
      run_main input_path log
      = (inr tt, (log ++ sent)%list,
         (prints ++ [ WriteFile output (JList records);
                      Print ("Extraction complete. Data saved to " ++ output) ])%list)
      /\ forallb is_print prints = true
      /\ Forall2 recorded (filter usable files) records
      /\ List.length sent = list_sum (map tables_in files)
      /\ forallb standard_request sent = true
  else
    run_main input_path log
    = (inr tt, log, [Print ("Error: The path '" ++ input_path ++ "' does not exist.")]).
Proof.
  cbv zeta. unfold V1.main. cbv zeta.
  destruct (path_exists input_path); cbn [negb]; [|reflexivity].
  destruct (first_files_loop_footprint (batch_files path_isdir glob_txt input_path) [] log)
    as (records & sent & out & Hrun & Hrec & Hsent & Hstd & Hout).
  cbn [app] in Hrun. unfold batch_files, output_filename in *.
  destruct (path_isdir input_path).
  - exists records, sent,
      (Print ("Directory detected. Found "
              ++ str_of_nat (List.length (glob_txt input_path)) ++ " .txt files.") :: out).
    split; [|split; [|split; [exact Hrec | split; [exact Hsent | exact Hstd]]]].
    + unfold bind at 1. unfold bind at 1. unfold print at 1. unfold ret at 1.
      unfold bind at 1. rewrite Hrun. unfold bind, write_file, print.
      cbn [app]. rewrite ?app_nil_r. reflexivity.
    + cbn [forallb is_print]. exact Hout.
  - exists records, sent, out.
    split; [|split; [exact Hout | split; [exact Hrec | split; [exact Hsent | exact Hstd]]]].
    unfold bind at 1. unfold ret at 1. unfold bind at 1. rewrite Hrun.
    unfold bind, write_file, print. cbn [app]. rewrite ?app_nil_r. reflexivity.
Qed.

Lemma first_main_returns (input_path : string) (log : list request) :
  exists log' out, run_main input_path log = (inr tt, log', out).
Proof.
  unfold V1.main. cbv zeta.
  destruct (path_exists input_path); cbn [negb]; [|eexists; eexists; reflexivity].
  destruct (path_isdir input_path).
  - destruct (first_files_loop_footprint (glob_txt input_path) [] log)
      as (records & sent & out & Hrun & _).
    unfold bind at 1. unfold bind at 1. unfold print at 1. unfold ret at 1.
    unfold bind at 1. rewrite Hrun. unfold bind, write_file, print.
    eexists. eexists. reflexivity.
  - destruct (first_files_loop_footprint [input_path] [] log)
      as (records & sent & out & Hrun & _).
    unfold bind at 1. unfold ret at 1. unfold bind at 1. rewrite Hrun.
    unfold bind, write_file, print. eexists. eexists. reflexivity.
Qed.

(** X17. The exit status of the script of the first version.  It is 1 exactly
    when no argument follows the name of the script, and then the two
    usage lines are all that happens.  Otherwise the script is [main] on
    the first argument, and the arguments after it are not read; its
    status is 0 also when the input path does not exist, where nothing is
    sent or written. *)
Theorem first_version_script (argv : list string) (log : list request) :
  exists status log' out,
    script argv log = (inr status, log', out)
    /\ ((status = 1%Z /\ (List.length argv < 2)%nat /\ log' = log
         /\ out = [ Print "Usage: python3 extract_tables.py <file_or_folder_path>";
                    Print "Example: python3 extract_tables.py my_filing.txt" ])
        \/ (status = 0%Z
            /\ exists input_arg,
                 nth_error argv 1 = Some input_arg
                 /\ run_main input_arg log = (inr tt, log', out)
                 /\ (path_exists input_arg = false ->
                     log' = log
                     /\ out = [Print ("Error: The path '" ++ input_arg
                                      ++ "' does not exist.")]))).
Proof.
  destruct argv as [|name [|input_arg rest]];
    try (exists 1%Z, log; eexists; split; [reflexivity|];
         left; repeat split; simpl; lia).
  cbn [V1.run_as_script].
  destruct (first_main_returns input_arg log) as (log' & out & Hmain).
  exists 0%Z, log', out. unfold bind at 1. rewrite Hmain.
  split; [unfold ret; rewrite app_nil_r; reflexivity|].
  right. split; [reflexivity|]. exists input_arg.
  split; [reflexivity|]. split; [exact Hmain|].
  intros Hmissing. unfold V1.main in Hmain. rewrite Hmissing in Hmain.
  cbn [negb] in Hmain. unfold print in Hmain. injection Hmain as <- <-. auto.
Qed.

End FirstVersion.

(* ================================================================== *)
(** * Worked conversations and batches *)
(* ================================================================== *)

Import Scenario.

(** The runtime on known values. *)
Example float_of_text :
  py_float "1000.00" = inr 1000%float
  /\ py_float "0.1" = inr 0x1.999999999999ap-4%float
  /\ py_float " 1e3 " = inr 1000%float
  /\ py_float "1_000" = inr 1000%float
  /\ py_float "-Infinity" = inr neg_infinity
  /\ py_float "9007199254740993" = inr 9007199254740992%float
  /\ py_float "1,000.00"
     = inl (Raise ValueError "could not convert string to float: '1,000.00'")
  /\ py_float (remove_commas "1,000.00") = inr 1000%float.
Proof. repeat split; vm_compute; reflexivity. Qed.

Example float_of_text_above_ascii :
  py_float (nbsp ++ "1000") = inr 1000%float
  /\ py_float ("1000" ++ nbsp) = inr 1000%float
  /\ py_float (arabic_three ++ ".5") = inr 3.5%float
  /\ py_float ("1" ++ nbsp ++ "000")
     = inl (Raise ValueError
              ("could not convert string to float: " ++ squote ++ "1" ++ nbsp ++ "000"
               ++ squote))
  /\ (exists e, py_float ("1000" ++ euro) = inl e)
  /\ py_len (euro ++ "1" ++ nbsp) = 3%nat
  /\ slice_to 2 (euro ++ "1" ++ nbsp) = euro ++ "1".
Proof.
  repeat split; try (vm_compute; reflexivity). eexists. vm_compute. reflexivity.
Qed.

Example repr_of_float :
  map repr_float
      [ 1000; 0x1.999999999999ap-4; 0x1.999999999999ap-4 + 0x1.999999999999ap-3;
        1e16; 1e15; 0x1p-20; 0x1p-1074; -0; infinity ]%float
  = [ "1000.0"; "0.1"; "0.30000000000000004"; "1e+16"; "1000000000000000.0";
      "9.5367431640625e-07"; "5e-324"; "-0.0"; "inf" ].
Proof. vm_compute. reflexivity. Qed.

Example str_of_values :
  py_str (JList [ JInt 1; JStr "a"; JDict [ ("k", JFloat 1.5); ("z", JNull) ]; JBool true ])
  = "[1, 'a', {'k': 1.5, 'z': None}, True]"
  /\ py_str (JStr "1,000.00") = "1,000.00"
  /\ py_str (JInt (-12)) = "-12".
Proof. repeat split; vm_compute; reflexivity. Qed.

(** The validator on the records of the specification's examples. *)
Example valid_balance_sheet :
  validate_financial_logic good_sheet [] = (inr None, [], []).
Proof. vm_compute. reflexivity. Qed.

Example invalid_balance_sheet :
  validate_financial_logic bad_sheet []
  = (inr (Some "Math Error: Total Assets (1000.0) does not equal Liabilities (600.0) + Net Assets (300.0). Difference is 100.0."),
     [], []).
Proof. vm_compute. reflexivity. Qed.

Lemma other_table_types_are_valid_witness :
  validate_financial_logic operations [] = (inr None, [], []).
Proof.
  apply (other_table_types_are_valid _ "Operations"); reflexivity.
Defined.

Lemma balance_rule_on_numbers_witness :
  validate_financial_logic good_sheet [] = (inr None, [], [])
  /\ validate_financial_logic bad_sheet []
     = (inr (Some (math_error 1000 600 300 100)), [], [])
  /\ str_in "100.0" (math_error 1000 600 300 100) = true.
Proof.
  split; [|split].
  - apply (balance_rule_on_numbers _ "Balance Sheet" [] 1000 600 400);
      reflexivity.
  - apply (balance_rule_on_numbers _ "Balance Sheet" [] 1000 600 300);
      reflexivity.
  - apply (balance_rule_on_numbers
             [ ("table_type", JStr "Balance Sheet"); ("total_assets", JStr "1000");
               ("total_liabilities", JStr "600"); ("net_assets", JStr "300") ]
             "Balance Sheet" [] 1000 600 300); reflexivity.
Defined.



(** C2, on the code: when the first call to the model times out, the
    session sends that one request and then raises [UnboundLocalError]
    instead of returning a failure record; in [main] the exception is
    caught by the handler of the file, so the second table of the file is
    never processed and the file has no record in the document written. *)
Theorem first_attempt_fault_raises :
  process_table_agentic_loop (scripted [inl timeout]) (loads known) dumps
    "<table>a1</table>" "a.txt" []
  = (inl (Raise UnboundLocalError
            "cannot access local variable 'extracted_data' where it is not associated with a value"),
     [ request_for (seed "<table>a1</table>" "a.txt") ],
     [ attempt_line 0; api_error_line timeout; exhausted_line ])
  /\ exists log' out,
       main (scripted [inl timeout; inr operations]) (loads known) dumps
            find_all_tables path_exists path_isdir glob_txt basename read_text
            "filings" []
       = (inr tt, log', out)
       /\ map req_messages log'
          = [ seed "<table>a1</table>" "a.txt"; seed "<table>c1</table>" "c.txt" ]
       /\ In (failed_line "filings/a.txt" (unbound_local "extracted_data")) out
       /\ In (WriteFile "output/final_output.json"
                (JList [ JDict [ ("filename", JStr "c.txt");
                                 ("extracted_tables",
                                  JList [ JDict [ ("table_type", JStr "Operations");
                                                  ("validation_status", JStr "passed");
                                                  ("attempts_needed", JInt 1) ] ]) ] ]))
             out.
Proof.
  split; [vm_compute; reflexivity|].
  eexists. eexists. split; [vm_compute; reflexivity|].
  split; [vm_compute; reflexivity|].
  split; vm_compute; tauto.
Qed.

(** C10, as stated, fails on a payload that already has a field
    [validation_status]: the accepted record holds the stamp in its place,
    and one field more than the payload, not two. *)
Lemma stamp_overwrites_payload_field :
  let payload := [ ("table_type", JStr "Other"); ("validation_status", JStr "pending") ] in
  let gateway := scripted [inr (JDict payload)] in
  exists v log' out,
    process_table_agentic_loop gateway (loads known) dumps "<table>a1</table>" "a.txt" []
    = (inr (JDict v), log', out)
    /\ response_record gateway (loads known) log' = inr (JDict payload)
    /\ dict_get "validation_status" v = Some (JStr "passed")
    /\ dict_get "validation_status" payload = Some (JStr "pending")
    /\ dict_get "validation_status" v <> dict_get "validation_status" payload
    /\ List.length v = (List.length payload + 1)%nat.
Proof.
  cbv zeta. eexists. eexists. eexists.
  split; [vm_compute; reflexivity|].
  repeat split; try (vm_compute; reflexivity).
  vm_compute. discriminate.
Qed.

Lemma accepted_record_frame_witness :
  exists v log' out,
    process_table_agentic_loop (scripted [inr bad_sheet; inr good_sheet]) (loads known)
      dumps "<table>a1</table>" "a.txt" [] = (inr v, log', out)
    /\ exists payload k,
         response_record (scripted [inr bad_sheet; inr good_sheet]) (loads known) log'
         = inr (JDict payload)
         /\ (1 <= k <= MAX_RETRIES)%nat
         /\ field "validation_status" v = Some (JStr "passed")
         /\ field "attempts_needed" v = Some (JInt (Z.of_nat k))
         /\ (forall key, key <> "validation_status" -> key <> "attempts_needed" ->
               field key v = dict_get key payload)
         /\ (dict_get "validation_status" payload = None ->
             dict_get "attempts_needed" payload = None ->
             v = JDict (payload ++ [ ("validation_status", JStr "passed");
                                     ("attempts_needed", JInt (Z.of_nat k)) ])).
Proof.
  eexists. eexists. eexists.
  split; [vm_compute; reflexivity|].
  apply (accepted_record_frame (scripted [inr bad_sheet; inr good_sheet]) (loads known)
           dumps "<table>a1</table>" "a.txt" [])
    with (out := [ attempt_line 0;
                   Print ("      ! Validation Failed: " ++ math_error 1000 600 300 100);
                   attempt_line 1 ]).
  - vm_compute. reflexivity.
  - reflexivity.
Defined.


Lemma validate_returns_witness :
  exists verdict, forall log,
    validate_financial_logic (JDict [ ("total_assets", JStr "12") ]) log
    = (inr verdict, log, []).
Proof.
  exact (validate_returns [ ("total_assets", JStr "12") ] EmptyString eq_refl).
Defined.

(** A session whose first response is rejected and whose second call
    times out. *)
Lemma fault_ends_session_witness :
  let gateway := scripted [inr bad_sheet; inl timeout] in
  let history := seed "<table>a1</table>" "a.txt" in
  let reason := math_error 1000 600 300 100 in
  exists out,
    process_table_agentic_loop gateway (loads known) dumps "<table>a1</table>" "a.txt" []
    = (inr (failure_record bad_sheet),
       [ request_for history;
         request_for (history ++ [assistant_turn dumps bad_sheet; audit_turn reason]) ],
       out).
Proof.
  cbv zeta.
  assert (R : rejections (scripted [inr bad_sheet; inl timeout]) (loads known) dumps
                [] (Locals (seed "<table>a1</table>" "a.txt") None) 1
                [request_for (seed "<table>a1</table>" "a.txt")]
                (Locals (seed "<table>a1</table>" "a.txt"
                         ++ [ assistant_turn dumps bad_sheet;
                              audit_turn (math_error 1000 600 300 100) ])
                        (Some bad_sheet))).
  { eapply rejections_more with (data := bad_sheet)
                                (reason := math_error 1000 600 300 100).
    - vm_compute. reflexivity.
    - vm_compute. reflexivity.
    - apply rejections_none. }
  destruct (fault_ends_session (scripted [inr bad_sheet; inl timeout]) (loads known) dumps
              "<table>a1</table>" "a.txt" [] _ 1 _ timeout R
              (le_S 2 2 (le_n 2)) eq_refl)
    as [out H].
  exists out. exact H.
Defined.

(** A balance sheet whose assets read [nan]. *)
Lemma nan_operand_is_valid_witness :
  validate_financial_logic nan_sheet [] = (inr None, [], []).
Proof.
  apply (nan_operand_is_valid
           [ ("table_type", JStr "Balance Sheet"); ("total_assets", JStr "nan") ]
           "balance sheet" [] nan 0 0); reflexivity.
Defined.

(** The record accepted at the second attempt. *)
Lemma accepted_record_is_valid_witness :
  exists v log' out,
    process_table_agentic_loop (scripted [inr bad_sheet; inr good_sheet]) (loads known)
      dumps "<table>a1</table>" "a.txt" [] = (inr v, log', out)
    /\ forall log0, validate_financial_logic v log0 = (inr None, log0, []).
Proof.
  eexists. eexists. eexists.
  split; [vm_compute; reflexivity|].
  eapply (accepted_record_is_valid (scripted [inr bad_sheet; inr good_sheet]) (loads known)
            dumps "<table>a1</table>" "a.txt" []).
  - vm_compute. reflexivity.
  - reflexivity.
Defined.

(** A first response whose [table_type] is a number. *)
Lemma validator_fault_ends_session_witness :
  let gateway := scripted [inr numbered_type] in
  exists out,
    process_table_agentic_loop gateway (loads known) dumps "<table>a1</table>" "a.txt" []
    = (inr (failure_record numbered_type),
       ([] ++ [request_for (seed "<table>a1</table>" "a.txt")])%list, out)
    /\ In (api_error_line (no_attribute (JInt 5) "lower")) out.
Proof.
  exact (validator_fault_ends_session
           (scripted [inr numbered_type]) (loads known) dumps
           "<table>a1</table>" "a.txt" [] [] 0
           (Locals (seed "<table>a1</table>" "a.txt") None)
           numbered_type (no_attribute (JInt 5) "lower")
           (rejections_none _ _ _ _ _)
           (le_S 1 2 (le_S 1 1 (le_n 1))) eq_refl eq_refl).
Defined.

(** A table that begins with 15000 euro signs, of three bytes each. *)
Lemma table_is_cut_at_15000_witness :
  let head := copies (N.to_nat 15000) euro in
  (forall rest',
     is_text rest' = true ->
     process_table_agentic_loop (always operations) (loads known) dumps
       (head ++ rest') "a.txt" []
     = process_table_agentic_loop (always operations) (loads known) dumps
         (head ++ "<tr>") "a.txt" [])
  /\ (forall table_html,
        (N.of_nat (py_len table_html) <= 15000)%N ->
        str_in table_html (base_prompt table_html "a.txt") = true).
Proof.
  apply (table_is_cut_at_15000 (always operations) (loads known) dumps
           (copies (N.to_nat 15000) euro) "<tr>" "a.txt" []).
  - vm_compute. discriminate.
  - reflexivity.
Defined.

(** A filing with two layout tables, one of them of 100 characters. *)
Lemma file_of_small_tables_witness :
  let layout := fun _ : string =>
    inr [ Tag 12 "<table> </table>"; Tag 100 "<table>notes</table>" ] : result (list tag) in
  process_file (always operations) (loads known) dumps layout basename read_text
    "filings/a.txt" []
  = (inr (file_record "a.txt" []), [], [Print "  - Found 0 tables."]).
Proof.
  apply (file_of_small_tables (always operations) (loads known) dumps
           (fun _ : string =>
              inr [ Tag 12 "<table> </table>"; Tag 100 "<table>notes</table>" ])
           basename read_text "filings/a.txt" "<html>a</html>"
           [ Tag 12 "<table> </table>"; Tag 100 "<table>notes</table>" ] []).
  - reflexivity.
  - reflexivity.
  - intros t [<-|[<-|[]]]; apply Nat.leb_le; reflexivity.
Defined.

